(** * Indian Property AI Predictor: a shallow embedding of [app.py]

    The Streamlit script [app.py] is embedded as a function from the
    things it reads (the file system, the clock, the unpickled model and
    encoders, the values coming back from the widgets) to the trace of
    what it does: the library calls it makes and the elements it puts on
    the page.  Page layout ([st.title], [st.columns], [st.divider], the
    section headings) carries no logic and is left out. *)

From Stdlib Require Import ZArith NArith List String Ascii Bool Lia.
From Stdlib Require Import Sorting.Sorted Sorting.Permutation.
From Stdlib Require Import SpecFloat DecimalString DecimalN DecimalPos.
Import ListNotations.

Open Scope string_scope.
Open Scope Z_scope.
Open Scope list_scope.

(** ** Python floats: IEEE 754 binary64 *)

Definition float : Type := spec_float.

Module Float64.

Definition prec : Z := 53.
Definition emax : Z := 1024.

(** [x * y] on Python floats and on numpy.float64. *)
Definition mul (x y : float) : float := SFmul prec emax x y.

(** The double nearest to [m * 2^e]; used to write literals. *)
Definition of_dyadic (m : Z) (e : Z) : float :=
  binary_normalize prec emax m e false.

Definition is_finite (x : float) : bool :=
  match x with
  | S754_zero _ | S754_finite _ _ _ => true
  | S754_infinity _ | S754_nan => false
  end.

(** Round [m * 2^e] to an integer, ties to even. *)
Definition round_half_even (m : positive) (e : Z) : Z :=
  if 0 <=? e then Zpos m * 2 ^ e
  else
    let d := 2 ^ (- e) in
    let q := Zpos m / d in
    let r := Zpos m mod d in
    match 2 * r ?= d with
    | Lt => q
    | Gt => q + 1
    | Eq => if Z.even q then q else q + 1
    end.

End Float64.

(** ** The pieces of Python the script uses *)

(** A scalar as it sits in a widget option or a DataFrame cell. *)
Inductive pyval :=
| PyStr (s : string)
| PyInt (z : Z)
| PyFloat (x : float).

(** What a library call hands back: a value, or an exception (a subclass
    of [Exception]) with the text [str(e)] gives. *)
Inductive pyresult (A : Type) :=
| Value (a : A)
| Exception (msg : string).
Arguments Value {A} a.
Arguments Exception {A} msg.

(** [x in xs] *)
Definition py_in (x : string) (xs : list string) : bool :=
  existsb (String.eqb x) xs.

(** [xs[0]] *)
Definition index0 {A} (xs : list A) : pyresult A :=
  match xs with
  | x :: _ => Value x
  | [] => Exception "index 0 is out of bounds for axis 0 with size 0"
  end.

(** [sorted(xs)] on strings: ascending in code point order.  The order
    is total and antisymmetric, so every sorting algorithm gives this
    list. *)
Fixpoint insert (x : string) (l : list string) : list string :=
  match l with
  | [] => [x]
  | y :: l' => if (x <=? y)%string then x :: l else y :: insert x l'
  end.

Definition sorted (l : list string) : list string :=
  fold_right insert [] l.

(** A dict with string keys, as the list of its items in insertion
    order. *)
Definition dict (V : Type) := list (string * V).

Definition dict_keys {V} (d : dict V) : list string := map fst d.

Fixpoint dict_get {V} (d : dict V) (k : string) : option V :=
  match d with
  | [] => None
  | (k', v) :: d' => if String.eqb k k' then Some v else dict_get d' k
  end.

(** [repr(s)] of a [str]: between single quotes, or between double
    quotes when the text holds a single quote and no double quote; the
    backslash and the chosen quote are escaped, tab, newline and return
    are written as their escapes and the other control characters in
    hexadecimal.  Characters beyond ASCII are kept as they are, which is
    what Python does for the printable ones. *)
Definition double_quote : ascii := ascii_of_N 34.
Definition single_quote : ascii := ascii_of_N 39.
Definition backslash : ascii := ascii_of_N 92.

Definition hex_digit (n : N) : ascii :=
  if (n <? 10)%N then ascii_of_N (48 + n) else ascii_of_N (87 + n).

Definition repr_char (quote c : ascii) : string :=
  let n := N_of_ascii c in
  if Ascii.eqb c backslash then String backslash (String backslash EmptyString)
  else if Ascii.eqb c quote then String backslash (String quote EmptyString)
  else if (n =? 9)%N then String backslash "t"
  else if (n =? 10)%N then String backslash "n"
  else if (n =? 13)%N then String backslash "r"
  else if ((n <? 32) || (n =? 127))%N
       then String backslash
              (String "x" (String (hex_digit (n / 16)) (String (hex_digit (n mod 16)) EmptyString)))
  else String c EmptyString.

Definition py_repr (s : string) : string :=
  let l := list_ascii_of_string s in
  let quote :=
    if existsb (Ascii.eqb single_quote) l && negb (existsb (Ascii.eqb double_quote) l)
    then double_quote else single_quote in
  String quote
    (fold_right (fun c acc => repr_char quote c ++ acc) (String quote EmptyString) l)%string.

(** [d[k]]; the text of a [KeyError] is the [repr] of the key. *)
Definition dict_getitem {V} (d : dict V) (k : string) : pyresult V :=
  match dict_get d k with
  | Some v => Value v
  | None => Exception (py_repr k)
  end.

(** *** [f"{x:,.0f}"] *)

Definition sign_str (s : bool) : string := if s then "-" else "".

(** Commas between groups of three digits, counted from the right. *)
Definition group_step (c : ascii) (acc : string * nat) : string * nat :=
  let (out, k) := acc in
  if Nat.eqb k 3 then (String c (String "," out), 1%nat)
  else (String c out, S k).

Definition group_thousands (digits : string) : string :=
  fst (fold_right group_step (EmptyString, 0%nat) (list_ascii_of_string digits)).

Definition decimal (n : Z) : string :=
  NilZero.string_of_uint (N.to_uint (Z.to_N n)).

(** [str(n)] of an [int]. *)
Definition py_str_int (n : Z) : string :=
  if n <? 0 then ("-" ++ decimal (- n))%string else decimal n.

Definition format_comma_0f (x : float) : string :=
  match x with
  | S754_nan => "nan"
  | S754_infinity s => sign_str s ++ "inf"
  | S754_zero s => sign_str s ++ "0"
  | S754_finite s m e =>
      sign_str s ++ group_thousands (decimal (Float64.round_half_even m e))
  end%string.

(** ** The loaded artifacts *)

(** [pd.DataFrame(rows, columns=...)] *)
Record DataFrame := {
  rows : list (list pyval);
  columns : list string
}.

(** A fitted scikit-learn [LabelEncoder]: the labels it knows and its
    [transform], which takes a list of labels and gives their codes or
    raises on a label it has not seen.  The library is not part of this
    repository; every statement below holds for whatever [transform]
    the unpickled object has. *)
Record LabelEncoder := {
  classes_ : list string;
  transform : list string -> pyresult (list Z)
}.

(** The regressor: [predict] gives one value per row, or raises. *)
Record Model := {
  predict : DataFrame -> pyresult (list float)
}.

Inductive encoder_name :=
| Le_country | Le_state | Le_city | Le_type | Le_condition.

(** ** Traces *)

(** Calls into libraries. *)
Inductive call :=
| OsPathExists (file : string)
| JoblibLoad (file : string)
| Transform (enc : encoder_name) (labels : list string)
| Predict (input_data : DataFrame).

(** Elements put on the page. *)
Inductive element :=
| StError (body : string)
| StWarning (body : string)
| StInfo (body : string)
| StSubheader (body : string)
| StMetric (label value : string)
| StSelectbox (label : string) (options : list pyval)
| StNumberInput (label : string) (min_value max_value value : Z) (step : option Z)
| StSlider (label : string) (min_value max_value value step : float)
| StButton (label : string).

Inductive event :=
| Call (c : call)
| Show (el : element).

(** How a run of a piece of the script ends: normally, with an
    exception on its way up, or by [st.stop()].  Streamlit's stop signal
    derives from [BaseException], so [except Exception] lets it pass. *)
Inductive ending (A : Type) :=
| Return (a : A)
| Raise (msg : string)
| Stop.
Arguments Return {A} a.
Arguments Raise {A} msg.
Arguments Stop {A}.

Definition M (A : Type) : Type := list event * ending A.

Definition ret {A} (a : A) : M A := ([], Return a).

Definition bind {A B} (m : M A) (k : A -> M B) : M B :=
  match m with
  | (t, Return a) => let (t', r) := k a in (t ++ t', r)
  | (t, Raise msg) => (t, Raise msg)
  | (t, Stop) => (t, Stop)
  end.

Notation "x <- m ;; k" := (bind m (fun x => k))
  (at level 61, m at next level, right associativity).
Notation "m ;; k" := (bind m (fun _ => k))
  (at level 61, right associativity).

(** [try: body  except Exception as e: handler] *)
Definition try_except {A} (body : M A) (handler : string -> M A) : M A :=
  match body with
  | (t, Raise msg) => let (t', r) := handler msg in (t ++ t', r)
  | other => other
  end.

Definition emit (ev : event) : M unit := ([ev], Return tt).

(** A library call: logged, then its value or its exception. *)
Definition perform {A} (c : call) (r : pyresult A) : M A :=
  ([Call c], match r with Value a => Return a | Exception msg => Raise msg end).

(** An indexing expression, which may raise. *)
Definition eval {A} (r : pyresult A) : M A :=
  ([], match r with Value a => Return a | Exception msg => Raise msg end).

Definition trace {A} (m : M A) : list event := fst m.
Definition ended {A} (m : M A) : ending A := snd m.

Definition calls {A} (m : M A) : list call :=
  flat_map (fun ev => match ev with Call c => [c] | Show _ => [] end) (trace m).

Definition shown {A} (m : M A) : list element :=
  flat_map (fun ev => match ev with Show el => [el] | Call _ => [] end) (trace m).

(** *** Streamlit *)

Definition st_error (body : string) : M unit := emit (Show (StError body)).
Definition st_warning (body : string) : M unit := emit (Show (StWarning body)).
Definition st_info (body : string) : M unit := emit (Show (StInfo body)).
Definition st_subheader (body : string) : M unit := emit (Show (StSubheader body)).
Definition st_metric (label value : string) : M unit :=
  emit (Show (StMetric label value)).
Definition st_stop : M unit := ([], Stop).

(** An input widget is drawn and gives back what the user has in it;
    that value is the last argument.  [st.number_input] first checks the
    default it is given against its bounds and raises, drawing nothing,
    when the default lies outside them. *)
Definition st_selectbox {A} (label : string) (options : list pyval) (chosen : A) : M A :=
  ([Show (StSelectbox label options)], Return chosen).
Definition st_number_input (label : string) (min_value max_value value : Z)
    (step : option Z) (entered : Z) : M Z :=
  if value <? min_value then
    ([], Raise ("The `value` " ++ py_str_int value ++ " is less than the `min_value` "
                  ++ py_str_int min_value ++ ".")%string)
  else if max_value <? value then
    ([], Raise ("The `value` " ++ py_str_int value ++ " is greater than the `max_value` "
                  ++ py_str_int max_value ++ ".")%string)
  else ([Show (StNumberInput label min_value max_value value step)], Return entered).
Definition st_slider (label : string) (min_value max_value value step : float)
    (at_ : float) : M float :=
  ([Show (StSlider label min_value max_value value step)], Return at_).
Definition st_button (label : string) (clicked : bool) : M bool :=
  ([Show (StButton label)], Return clicked).

(** ** The script *)

Definition required_files : list string :=
  ["ghormach_model.pkl"; "le_country.pkl"; "le_state.pkl"; "le_city.pkl";
   "le_type.pkl"; "le_condition.pkl"].

Definition indian_geography : dict (list string) :=
  [ ("Andhra Pradesh", ["Visakhapatnam"; "Vijayawada"; "Guntur"; "Nellore"; "Tirupati"]);
    ("Arunachal Pradesh", ["Itanagar"; "Tawang"; "Naharlagun"]);
    ("Assam", ["Guwahati"; "Silchar"; "Dibrugarh"; "Jorhat"]);
    ("Bihar", ["Patna"; "Gaya"; "Bhagalpur"; "Muzaffarpur"]);
    ("Chhattisgarh", ["Raipur"; "Bhilai"; "Bilaspur"]);
    ("Goa", ["Panaji"; "Margao"; "Vasco da Gama"]);
    ("Gujarat", ["Ahmedabad"; "Surat"; "Vadodara"; "Rajkot"; "Gandhinagar"]);
    ("Haryana", ["Gurugram"; "Faridabad"; "Panipat"; "Ambala"]);
    ("Himachal Pradesh", ["Shimla"; "Manali"; "Dharamshala"]);
    ("Jharkhand", ["Ranchi"; "Jamshedpur"; "Dhanbad"]);
    ("Karnataka", ["Bengaluru"; "Mysuru"; "Mangaluru"; "Hubli"; "Belagavi"]);
    ("Kerala", ["Thiruvananthapuram"; "Kochi"; "Kozhikode"; "Thrissur"]);
    ("Madhya Pradesh", ["Indore"; "Bhopal"; "Jabalpur"; "Gwalior"]);
    ("Maharashtra", ["Mumbai"; "Pune"; "Nagpur"; "Nashik"; "Thane"]);
    ("Manipur", ["Imphal"; "Thoubal"]);
    ("Meghalaya", ["Shillong"; "Tura"]);
    ("Mizoram", ["Aizawl"; "Lunglei"]);
    ("Nagaland", ["Dimapur"; "Kohima"]);
    ("Odisha", ["Bhubaneswar"; "Cuttack"; "Rourkela"; "Puri"]);
    ("Punjab", ["Ludhiana"; "Amritsar"; "Jalandhar"; "Patiala"; "Chandigarh"]);
    ("Rajasthan", ["Jaipur"; "Jodhpur"; "Udaipur"; "Kota"; "Ajmer"]);
    ("Sikkim", ["Gangtok"; "Namchi"]);
    ("Tamil Nadu", ["Chennai"; "Coimbatore"; "Madurai"; "Tiruchirappalli"]);
    ("Telangana", ["Hyderabad"; "Warangal"; "Nizamabad"]);
    ("Tripura", ["Agartala"; "Dharmanagar"]);
    ("Uttar Pradesh", ["Lucknow"; "Kanpur"; "Varanasi"; "Agra"; "Noida"]);
    ("Uttarakhand", ["Dehradun"; "Haridwar"; "Roorkee"; "Rishikesh"]);
    ("West Bengal", ["Kolkata"; "Howrah"; "Darjeeling"; "Siliguri"]);
    ("Delhi", ["New Delhi"; "Delhi Cantonment"]);
    ("Jammu and Kashmir", ["Srinagar"; "Jammu"; "Anantnag"]) ].

(** The options of the State selectbox, and those of the City selectbox
    once a state is chosen ([None]: the lookup raises [KeyError]). *)
Definition states : list string := sorted (dict_keys indian_geography).

Definition cities (selected_state : string) : option (list string) :=
  option_map sorted (dict_get indian_geography selected_state).

(** What the script reads from outside: which files exist, what
    [joblib.load] gives for each (the object, or the exception raised
    for a file that cannot be unpickled), and today's year. *)
Record world := {
  path_exists : string -> bool;
  unpickle_model : string -> pyresult Model;
  unpickle_encoder : string -> pyresult LabelEncoder;
  today_year : Z
}.

(** The values the widgets give back on this run. *)
Record form := {
  selected_state : string;
  selected_city : string;
  year : Z;
  prop_type : string;
  size : Z;
  bedrooms : Z;
  condition : string;
  distance : float;
  button : bool
}.

Record artifacts := {
  model : Model;
  le_country : LabelEncoder;
  le_state : LabelEncoder;
  le_city : LabelEncoder;
  le_type : LabelEncoder;
  le_condition : LabelEncoder
}.

Definition os_path_exists (w : world) (file : string) : M bool :=
  perform (OsPathExists file) (Value (path_exists w file)).

Definition joblib_load_model (w : world) (file : string) : M Model :=
  perform (JoblibLoad file) (unpickle_model w file).

Definition joblib_load_encoder (w : world) (file : string) : M LabelEncoder :=
  perform (JoblibLoad file) (unpickle_encoder w file).

Definition missing_file_message (file : string) : string :=
  ("Missing file: " ++ file ++ ". Please run `python train_model.py` first.")%string.

(** Lines 11-14: the loop over [required_files]. *)
Fixpoint check_required (w : world) (files : list string) : M unit :=
  match files with
  | [] => ret tt
  | file :: rest =>
      present <- os_path_exists w file ;;
      (if negb present
       then (st_error (missing_file_message file) ;; st_stop)
       else ret tt) ;;
      check_required w rest
  end.

(** Lines 17-22. *)
Definition load_artifacts (w : world) : M artifacts :=
  model <- joblib_load_model w "ghormach_model.pkl" ;;
  le_country <- joblib_load_encoder w "le_country.pkl" ;;
  le_state <- joblib_load_encoder w "le_state.pkl" ;;
  le_city <- joblib_load_encoder w "le_city.pkl" ;;
  le_type <- joblib_load_encoder w "le_type.pkl" ;;
  le_condition <- joblib_load_encoder w "le_condition.pkl" ;;
  ret {| model := model; le_country := le_country; le_state := le_state;
         le_city := le_city; le_type := le_type; le_condition := le_condition |}.

Definition encoder_transform (n : encoder_name) (le : LabelEncoder)
    (labels : list string) : M (list Z) :=
  perform (Transform n labels) (transform le labels).

Definition model_predict (m : Model) (input_data : DataFrame) : M (list float) :=
  perform (Predict input_data) (predict m input_data).

Definition feature_columns : list string :=
  ["Year"; "Country_Enc"; "State_Enc"; "City_Enc"; "Type_Enc"; "Size_sqm";
   "Bedrooms"; "Condition_Enc"; "Distance_km"].

(** 86.50 *)
Definition exchange_rate : float := Float64.of_dyadic 173 (-1).

Definition advisory_warning (selected_city : string) : string :=
  ("⚠️ **AI Alert:** We don't have historical housing data for **"
     ++ selected_city ++ "** yet!")%string.

Definition advisory_info : string :=
  "💡 **Try selecting a city the AI has studied:** Bengaluru, Mumbai, New Delhi, Chennai, or Hyderabad.".

(** [le.transform([label])[0]] *)
Definition encode (n : encoder_name) (le : LabelEncoder) (label : string) : M Z :=
  r <- encoder_transform n le [label] ;; eval (index0 r).

(** [model.predict(input_data)[0]] *)
Definition infer (m : Model) (input_data : DataFrame) : M float :=
  r <- model_predict m input_data ;; eval (index0 r).

(** Lines 112-113. *)
Definition make_input_data (year country_enc state_enc city_enc type_enc
    size bedrooms condition_enc : Z) (distance : float) : DataFrame :=
  {| rows := [[PyInt year; PyInt country_enc; PyInt state_enc; PyInt city_enc;
               PyInt type_enc; PyInt size; PyInt bedrooms; PyInt condition_enc;
               PyFloat distance]];
     columns := feature_columns |}.

(** Lines 105-126: the body of the [try]. *)
Definition predict_logic (a : artifacts) (f : form) : M unit :=
  country_enc <- encode Le_country (le_country a) "India" ;;
  state_enc <- encode Le_state (le_state a) (selected_state f) ;;
  city_enc <- encode Le_city (le_city a) (selected_city f) ;;
  type_enc <- encode Le_type (le_type a) (prop_type f) ;;
  condition_enc <- encode Le_condition (le_condition a) (condition f) ;;
  let input_data :=
    make_input_data (year f) country_enc state_enc city_enc type_enc
                    (size f) (bedrooms f) condition_enc (distance f) in
  prediction_usd <- infer (model a) input_data ;;
  let prediction_inr := Float64.mul prediction_usd exchange_rate in
  st_subheader ("Estimated Value in " ++ selected_city f)%string ;;
  st_metric "Price in INR" ("₹" ++ format_comma_0f prediction_inr)%string ;;
  st_metric "Price in USD" ("$" ++ format_comma_0f prediction_usd)%string.

(** Lines 99-129: what runs when the button is pressed. *)
Definition prediction_engine (a : artifacts) (f : form) : M unit :=
  if negb (py_in (selected_city f) (classes_ (le_city a))) then
    st_warning (advisory_warning (selected_city f)) ;;
    st_info advisory_info
  else
    try_except (predict_logic a f)
               (fun e => st_error ("Prediction error: " ++ e)%string).

(** Lines 63-97: the form, then the engine if the button was pressed. *)
Definition form_and_engine (w : world) (a : artifacts) (f : form) : M unit :=
  selected_state <- st_selectbox "State" (map PyStr states) (selected_state f) ;;
  cities <- eval (dict_getitem indian_geography selected_state) ;;
  _ <- st_selectbox "City" (map PyStr (sorted cities)) (selected_city f) ;;
  let current_year := today_year w in
  _ <- st_number_input "Year" 2000 2050 current_year None (year f) ;;
  _ <- st_selectbox "Type" (map PyStr (classes_ (le_type a))) (prop_type f) ;;
  _ <- st_number_input "Size (sqm)" 10 1000 100 (Some 10) (size f) ;;
  _ <- st_selectbox "Bedrooms" (map PyInt [1; 2; 3; 4; 5; 6]) (bedrooms f) ;;
  _ <- st_selectbox "Condition" (map PyStr (classes_ (le_condition a))) (condition f) ;;
  _ <- st_slider "Distance (km)" (S754_zero false) (Float64.of_dyadic 20 0)
         (Float64.of_dyadic 2 0) (S754_finite false 7205759403792794 (-56))
         (distance f) ;;
  clicked <- st_button "Calculate Property Value" (button f) ;;
  if clicked then prediction_engine a f else ret tt.

(** One run of [app.py]. *)
Definition app_py (w : world) (f : form) : M unit :=
  check_required w required_files ;;
  a <- load_artifacts w ;;
  form_and_engine w a f.

(** ** Stand-ins for the pickled objects, to run the script on *)

Fixpoint index_of (x : string) (l : list string) : option Z :=
  match l with
  | [] => None
  | y :: l' => if String.eqb x y then Some 0 else option_map Z.succ (index_of x l')
  end.

(** A table encoder to run the script on, not scikit-learn's: the code
    of a label is its place in [classes], and a label that is not there
    raises with a text of this stand-in's own. *)
Fixpoint encode_labels (classes labels : list string) : pyresult (list Z) :=
  match labels with
  | [] => Value []
  | y :: ys =>
      match index_of y classes with
      | None => Exception ("label not in the table: " ++ y)%string
      | Some i =>
          match encode_labels classes ys with
          | Value cs => Value (i :: cs)
          | Exception msg => Exception msg
          end
      end
  end.

Definition label_encoder (classes : list string) : LabelEncoder :=
  {| classes_ := classes; transform := encode_labels classes |}.

(** A model that answers every frame with [value], and one whose
    [predict] raises. *)
Definition constant_model (value : float) : Model :=
  {| predict := fun _ => Value [value] |}.

Definition failing_model (msg : string) : Model :=
  {| predict := fun _ => Exception msg |}.

Definition demo_artifacts (m : Model) : artifacts :=
  {| model := m;
     le_country := label_encoder ["India"];
     le_state := label_encoder ["Delhi"; "Karnataka"; "Maharashtra"; "Sikkim";
                                "Tamil Nadu"; "Telangana"];
     le_city := label_encoder ["Bengaluru"; "Chennai"; "Hyderabad"; "Mumbai";
                               "New Delhi"];
     le_type := label_encoder ["Apartment"; "House"; "Villa"];
     le_condition := label_encoder ["Good"; "New"; "Old"] |}.

Definition demo_form (state city : string) : form :=
  {| selected_state := state; selected_city := city; year := 2024;
     prop_type := "House"; size := 100; bedrooms := 3; condition := "New";
     distance := Float64.of_dyadic 2 0; button := true |}.

Definition mumbai_form : form := demo_form "Maharashtra" "Mumbai".

(** A model whose answer is the double 2^1023, about 8.99e307. *)
Definition huge_artifacts : artifacts :=
  demo_artifacts (constant_model (S754_finite false (2 ^ 52) 971)).

(** The same artifacts with a city encoder that knows one more city;
    the labels of [demo_artifacts] keep their codes. *)
Definition wider_artifacts (m : Model) : artifacts :=
  {| model := m;
     le_country := le_country (demo_artifacts m);
     le_state := le_state (demo_artifacts m);
     le_city := label_encoder ["Bengaluru"; "Chennai"; "Hyderabad"; "Mumbai";
                               "New Delhi"; "Pune"];
     le_type := le_type (demo_artifacts m);
     le_condition := le_condition (demo_artifacts m) |}.

Definition wider_world (present : string -> bool) (m : Model) (today : Z) : world :=
  {| path_exists := present;
     unpickle_model := fun _ => Value m;
     unpickle_encoder := fun file =>
       Value
         (if String.eqb file "le_country.pkl" then le_country (wider_artifacts m)
          else if String.eqb file "le_state.pkl" then le_state (wider_artifacts m)
          else if String.eqb file "le_city.pkl" then le_city (wider_artifacts m)
          else if String.eqb file "le_type.pkl" then le_type (wider_artifacts m)
          else le_condition (wider_artifacts m));
     today_year := today |}.

Definition demo_world (present : string -> bool) (m : Model) (today : Z) : world :=
  {| path_exists := present;
     unpickle_model := fun _ => Value m;
     unpickle_encoder := fun file =>
       Value
         (if String.eqb file "le_country.pkl" then le_country (demo_artifacts m)
          else if String.eqb file "le_state.pkl" then le_state (demo_artifacts m)
          else if String.eqb file "le_city.pkl" then le_city (demo_artifacts m)
          else if String.eqb file "le_type.pkl" then le_type (demo_artifacts m)
          else le_condition (demo_artifacts m));
     today_year := today |}.

(** ** Vocabulary of the statements *)

(** *** Calls without the logging *)

(** The value of [le.transform([label])[0]] and of
    [model.predict(input_data)[0]], without the logging. *)
Definition encoded (le : LabelEncoder) (label : string) : pyresult Z :=
  match transform le [label] with
  | Value r => index0 r
  | Exception msg => Exception msg
  end.

Definition predicted (m : Model) (input_data : DataFrame) : pyresult float :=
  match predict m input_data with
  | Value r => index0 r
  | Exception msg => Exception msg
  end.

(** *** Failures *)

(** The ways a request can fail once the locality guard has let it
    through: the first encoder that raises, in the order the script
    calls them, or else the model. *)
Inductive request_failure (a : artifacts) (f : form) (msg : string) : Prop :=
| Country_raises :
    encoded (le_country a) "India" = Exception msg ->
    request_failure a f msg
| State_raises c :
    encoded (le_country a) "India" = Value c ->
    encoded (le_state a) (selected_state f) = Exception msg ->
    request_failure a f msg
| City_raises c s :
    encoded (le_country a) "India" = Value c ->
    encoded (le_state a) (selected_state f) = Value s ->
    encoded (le_city a) (selected_city f) = Exception msg ->
    request_failure a f msg
| Type_raises c s l :
    encoded (le_country a) "India" = Value c ->
    encoded (le_state a) (selected_state f) = Value s ->
    encoded (le_city a) (selected_city f) = Value l ->
    encoded (le_type a) (prop_type f) = Exception msg ->
    request_failure a f msg
| Condition_raises c s l t :
    encoded (le_country a) "India" = Value c ->
    encoded (le_state a) (selected_state f) = Value s ->
    encoded (le_city a) (selected_city f) = Value l ->
    encoded (le_type a) (prop_type f) = Value t ->
    encoded (le_condition a) (condition f) = Exception msg ->
    request_failure a f msg
| Predict_raises c s l t k :
    encoded (le_country a) "India" = Value c ->
    encoded (le_state a) (selected_state f) = Value s ->
    encoded (le_city a) (selected_city f) = Value l ->
    encoded (le_type a) (prop_type f) = Value t ->
    encoded (le_condition a) (condition f) = Value k ->
    predicted (model a)
      (make_input_data (year f) c s l t (size f) (bedrooms f) k (distance f))
      = Exception msg ->
    request_failure a f msg.

(** *** Whole numbers and their text *)

(** The text of a whole number [n >= 0] with its sign, as
    [f"{x:,.0f}"] writes it. *)
Definition whole_text (negative : bool) (n : Z) : string :=
  (sign_str negative ++ group_thousands (decimal n))%string.

(** [n] is a whole number nearest to the magnitude of the finite [x]:
    for [x = m * 2^e] with [0 <= e] it is [x] itself, and for
    [x = m / 2^k] it is at most one half away, [2 * |n * 2^k - m| <= 2^k]. *)
Definition nearest_whole (x : float) (n : Z) : Prop :=
  match x with
  | S754_zero _ => n = 0
  | S754_finite _ m e =>
      if 0 <=? e then n = Zpos m * 2 ^ e
      else 2 * Z.abs (n * 2 ^ (- e) - Zpos m) <= 2 ^ (- e)
  | S754_infinity _ | S754_nan => False
  end.

Definition is_negative (x : float) : bool :=
  match x with
  | S754_zero s | S754_infinity s | S754_finite s _ _ => s
  | S754_nan => false
  end.

Definition digit_or_comma (c : ascii) : bool :=
  let n := N_of_ascii c in
  ((48 <=? n) && (n <=? 57) || (n =? 44))%N.

Fixpoint all_chars (p : ascii -> bool) (s : string) : bool :=
  match s with
  | EmptyString => true
  | String c s' => p c && all_chars p s'
  end.

(** *** Startup, catalog, results *)

Definition exists_calls (files : list string) : list event :=
  map (fun g => Call (OsPathExists g)) files.

(** Ascending order on strings, by code point. *)
Definition str_le (x y : string) : Prop := (x <=? y)%string = true.

(** No repeated element, as a check that runs. *)
Fixpoint distinct (l : list string) : bool :=
  match l with
  | [] => true
  | x :: l' => negb (py_in x l') && distinct l'
  end.

(** The elements that carry a run's result, as opposed to the input
    widgets of the form. *)
Definition is_result (el : element) : bool :=
  match el with
  | StError _ | StWarning _ | StInfo _ | StSubheader _ | StMetric _ _ => true
  | StSelectbox _ _ | StNumberInput _ _ _ _ _ | StSlider _ _ _ _ _ | StButton _ => false
  end.

Definition results {A} (m : M A) : list element := filter is_result (shown m).

(** *** Reading a price text back *)

(** The text without its thousands separators, and the whole number
    its digits spell. *)
Definition strip_commas (s : string) : string :=
  string_of_list_ascii
    (filter (fun c => negb (Ascii.eqb c ",")) (list_ascii_of_string s)).

Definition read_whole (s : string) : option Z :=
  option_map (fun d => Z.of_N (N.of_uint d)) (NilZero.uint_of_string (strip_commas s)).

(** The calls of a complete run of the [try] body, in order. *)
Definition full_calls (f : form) (input_data : DataFrame) : list call :=
  [Transform Le_country ["India"];
   Transform Le_state [selected_state f];
   Transform Le_city [selected_city f];
   Transform Le_type [prop_type f];
   Transform Le_condition [condition f];
   Predict input_data].

(** The nine input widgets of the form, as drawn. *)
Definition form_widgets (w : world) (a : artifacts) (raw : list string) : list element :=
  [StSelectbox "State" (map PyStr states);
   StSelectbox "City" (map PyStr (sorted raw));
   StNumberInput "Year" 2000 2050 (today_year w) None;
   StSelectbox "Type" (map PyStr (classes_ (le_type a)));
   StNumberInput "Size (sqm)" 10 1000 100 (Some 10);
   StSelectbox "Bedrooms" (map PyInt [1; 2; 3; 4; 5; 6]);
   StSelectbox "Condition" (map PyStr (classes_ (le_condition a)));
   StSlider "Distance (km)" (S754_zero false) (Float64.of_dyadic 20 0)
     (Float64.of_dyadic 2 0) (S754_finite false 7205759403792794 (-56));
   StButton "Calculate Property Value"].

(** Every load of the world [w] succeeds and [a] is what they give. *)
Definition unpickled (w : world) (a : artifacts) : Prop :=
  unpickle_model w "ghormach_model.pkl" = Value (model a)
  /\ unpickle_encoder w "le_country.pkl" = Value (le_country a)
  /\ unpickle_encoder w "le_state.pkl" = Value (le_state a)
  /\ unpickle_encoder w "le_city.pkl" = Value (le_city a)
  /\ unpickle_encoder w "le_type.pkl" = Value (le_type a)
  /\ unpickle_encoder w "le_condition.pkl" = Value (le_condition a).

Definition load_calls : list event :=
  map (fun g => Call (JoblibLoad g)) required_files.

(** Two sets of artifacts give the same answers to what a run with the
    form [f] asks of them: whether the city is among the city encoder's
    labels, the code of each of the five labels, and the model's value
    on every frame that carries the form's year, size, bedrooms and
    distance. *)
Definition answers_alike (a1 a2 : artifacts) (f : form) : Prop :=
  py_in (selected_city f) (classes_ (le_city a1))
    = py_in (selected_city f) (classes_ (le_city a2))
  /\ encoded (le_country a1) "India" = encoded (le_country a2) "India"
  /\ encoded (le_state a1) (selected_state f) = encoded (le_state a2) (selected_state f)
  /\ encoded (le_city a1) (selected_city f) = encoded (le_city a2) (selected_city f)
  /\ encoded (le_type a1) (prop_type f) = encoded (le_type a2) (prop_type f)
  /\ encoded (le_condition a1) (condition f) = encoded (le_condition a2) (condition f)
  /\ forall c s l t k,
       predicted (model a1)
         (make_input_data (year f) c s l t (size f) (bedrooms f) k (distance f))
       = predicted (model a2)
           (make_input_data (year f) c s l t (size f) (bedrooms f) k (distance f)).

(** When the finite [x] lies exactly halfway between two whole numbers,
    that is when [n] is exactly one half away from it, [n] is even. *)
Definition ties_to_even (x : float) (n : Z) : Prop :=
  match x with
  | S754_finite _ m e =>
      e < 0 -> 2 * Z.abs (n * 2 ^ (- e) - Zpos m) = 2 ^ (- e) -> Z.even n = true
  | S754_zero _ | S754_infinity _ | S754_nan => True
  end.

Definition is_digit (c : ascii) : bool :=
  let n := N_of_ascii c in ((48 <=? n) && (n <=? 57))%N.

(** * Properties *)

(** ** The script on sample inputs *)

Example literal_86_5 : exchange_rate = S754_finite false 6086896371367936 (-46).
Proof. reflexivity. Qed.

Example format_ties_to_even :
  map format_comma_0f
      [Float64.of_dyadic 1 (-1); Float64.of_dyadic 3 (-1); Float64.of_dyadic 5 (-1);
       Float64.of_dyadic 173 (-1); Float64.of_dyadic (-1) (-2);
       Float64.of_dyadic 1234567 0; S754_nan; S754_infinity true]
  = ["0"; "2"; "2"; "86"; "-0"; "1,234,567"; "nan"; "-inf"].
Proof. reflexivity. Qed.

Example sorted_sample :
  cities "Punjab" = Some ["Amritsar"; "Chandigarh"; "Jalandhar"; "Ludhiana"; "Patiala"].
Proof. reflexivity. Qed.

Example states_sample :
  firstn 3 states = ["Andhra Pradesh"; "Arunachal Pradesh"; "Assam"]
  /\ nth_error states 5 = Some "Delhi" /\ List.length states = 30%nat.
Proof. repeat split. Qed.

Example repr_samples :
  py_repr "Goa" = "'Goa'"
  /\ py_repr "O'Brien" = String double_quote ("O'Brien" ++ String double_quote "")
  /\ py_repr (String double_quote "it's")
     = String single_quote
         (String double_quote ("it" ++ String backslash "'s'"))
  /\ py_repr (String backslash (String (ascii_of_N 10) (String (ascii_of_N 1) "")))
     = String single_quote
         (String backslash (String backslash
            (String backslash ("n" ++ String backslash "x01'")))).
Proof. repeat split. Qed.

(** In 2051 the run ends at the Year input. *)
Example year_2051 :
  app_py (demo_world (fun _ => true) (failing_model "never called") 2051) mumbai_form
  = (exists_calls required_files ++ load_calls
       ++ [Show (StSelectbox "State" (map PyStr states));
           Show (StSelectbox "City"
                   [PyStr "Mumbai"; PyStr "Nagpur"; PyStr "Nashik"; PyStr "Pune";
                    PyStr "Thane"])],
     Raise "The `value` 2051 is greater than the `max_value` 2050.").
Proof. reflexivity. Qed.

(** Mumbai is known to the stand-in encoder: the model is asked once
    and its 100000 is shown with its product by 86.5. *)
Example scenario_known_city :
  prediction_engine (demo_artifacts (constant_model (Float64.of_dyadic 100000 0)))
                    mumbai_form
  = ([Call (Transform Le_country ["India"]);
      Call (Transform Le_state ["Maharashtra"]);
      Call (Transform Le_city ["Mumbai"]);
      Call (Transform Le_type ["House"]);
      Call (Transform Le_condition ["New"]);
      Call (Predict (make_input_data 2024 0 2 3 1 100 3 1 (Float64.of_dyadic 2 0)));
      Show (StSubheader "Estimated Value in Mumbai");
      Show (StMetric "Price in INR" "₹8,650,000");
      Show (StMetric "Price in USD" "$100,000")],
     Return tt).
Proof. reflexivity. Qed.

(** Gangtok is in the catalog but not known to the stand-in encoder. *)
Example scenario_unknown_city :
  prediction_engine (demo_artifacts (failing_model "never called"))
                    (demo_form "Sikkim" "Gangtok")
  = ([Show (StWarning "⚠️ **AI Alert:** We don't have historical housing data for **Gangtok** yet!");
      Show (StInfo "💡 **Try selecting a city the AI has studied:** Bengaluru, Mumbai, New Delhi, Chennai, or Hyderabad.")],
     Return tt).
Proof. reflexivity. Qed.

(** A state the stand-in state encoder has not seen, with a city it
    has: the second [transform] raises and the error is shown. *)
Example scenario_unseen_state :
  prediction_engine (demo_artifacts (failing_model "never called"))
                    (demo_form "Goa" "Mumbai")
  = ([Call (Transform Le_country ["India"]);
      Call (Transform Le_state ["Goa"]);
      Show (StError "Prediction error: label not in the table: Goa")],
     Return tt).
Proof. reflexivity. Qed.

(** ** Running the monad *)

Lemma py_in_In (x : string) (xs : list string) :
  py_in x xs = true <-> In x xs.
Proof.
  unfold py_in. rewrite existsb_exists. split.
  - intros [y [Hy Heq]]. apply String.eqb_eq in Heq. now subst.
  - intros H. exists x. split; [assumption | apply String.eqb_refl].
Qed.

Lemma py_in_not_In (x : string) (xs : list string) :
  py_in x xs = false <-> ~ In x xs.
Proof.
  rewrite <- py_in_In. destruct (py_in x xs); split; congruence.
Qed.

Lemma bind_Return {A B} (t : list event) (a : A) (k : A -> M B) :
  bind (t, Return a) k = (t ++ trace (k a), ended (k a)).
Proof. unfold bind, trace, ended. now destruct (k a). Qed.

Lemma bind_perform_Value {A B} (c : call) (v : A) (k : A -> M B) :
  bind (perform c (Value v)) k = (Call c :: trace (k v), ended (k v)).
Proof. unfold bind, perform, trace, ended. now destruct (k v). Qed.

Lemma bind_perform_Exception {A B} (c : call) (msg : string) (k : A -> M B) :
  bind (perform c (Exception msg)) k = ([Call c], Raise msg).
Proof. reflexivity. Qed.

Lemma encode_perform (n : encoder_name) (le : LabelEncoder) (label : string) :
  encode n le label = perform (Transform n [label]) (encoded le label).
Proof.
  unfold encode, encoder_transform, encoded, perform, eval, bind.
  destruct (transform le [label]) as [r | msg]; [destruct (index0 r) |]; reflexivity.
Qed.

Lemma infer_perform (m : Model) (input_data : DataFrame) :
  infer m input_data = perform (Predict input_data) (predicted m input_data).
Proof.
  unfold infer, model_predict, predicted, perform, eval, bind.
  destruct (predict m input_data) as [r | msg]; [destruct (index0 r) |]; reflexivity.
Qed.

(** Run the next call of the [try] body with the result a hypothesis
    gives for it. *)
Ltac run_call :=
  first [rewrite encode_perform | rewrite infer_perform];
  match goal with
  | H : ?r = Value _ |- context [perform _ ?r] =>
      rewrite H, bind_perform_Value; cbv beta
  | H : ?r = Exception _ |- context [perform _ ?r] =>
      rewrite H, bind_perform_Exception
  end.

(** Or split on what the call gives. *)
Ltac split_call :=
  first [rewrite encode_perform | rewrite infer_perform];
  match goal with
  | |- context [perform _ ?r] =>
      destruct r eqn:?;
      [rewrite bind_perform_Value; cbv beta | rewrite bind_perform_Exception]
  end.

Lemma predict_logic_failure (a : artifacts) (f : form) (msg : string) :
  request_failure a f msg ->
  shown (predict_logic a f) = [] /\ ended (predict_logic a f) = Raise msg.
Proof.
  intros H; destruct H; unfold predict_logic; repeat run_call; split; reflexivity.
Qed.

Lemma shown_try_except {A} (body : M A) (handler : string -> M A) (msg : string) :
  ended body = Raise msg ->
  shown (try_except body handler) = shown body ++ shown (handler msg)
  /\ ended (try_except body handler) = ended (handler msg).
Proof.
  destruct body as [t e]. unfold ended, shown, trace, try_except. simpl.
  intros ->. destruct (handler msg) as [t' e']. simpl.
  now rewrite flat_map_app.
Qed.

(** ** The locality guard *)

(** C1. When the selected city is not among [le_city.classes_], the
    engine shows the warning that names the city and the hint, calls no
    encoder's [transform] and not the model's [predict], and ends
    normally. *)
Theorem unknown_city_gets_advisory (a : artifacts) (f : form) :
  ~ In (selected_city f) (classes_ (le_city a)) ->
  trace (prediction_engine a f)
    = [Show (StWarning ("⚠️ **AI Alert:** We don't have historical housing data for **"
                          ++ selected_city f ++ "** yet!")%string);
       Show (StInfo advisory_info)]
  /\ calls (prediction_engine a f) = []
  /\ ended (prediction_engine a f) = Return tt.
Proof.
  intros Hnot. apply py_in_not_In in Hnot.
  unfold prediction_engine. rewrite Hnot. simpl. repeat split.
Qed.

Lemma unknown_city_gets_advisory_witness :
  calls (prediction_engine (demo_artifacts (constant_model (S754_zero false)))
                           (demo_form "Sikkim" "Gangtok")) = [].
Proof.
  apply (unknown_city_gets_advisory
           (demo_artifacts (constant_model (S754_zero false)))
           (demo_form "Sikkim" "Gangtok")).
  apply py_in_not_In. reflexivity.
Defined.

(** C9. The hint shown with the advisory is one fixed text listing
    Bengaluru, Mumbai, New Delhi, Chennai and Hyderabad: any two
    advisories, whatever the artifacts, the state and the city, carry
    the same hint, and it names those five cities even when the locality
    encoder knows none of them. *)
Theorem advisory_hint_is_fixed (a1 a2 : artifacts) (f1 f2 : form) :
  ~ In (selected_city f1) (classes_ (le_city a1)) ->
  ~ In (selected_city f2) (classes_ (le_city a2)) ->
  let hint m := flat_map (fun el => match el with StInfo s => [s] | _ => [] end) (shown m) in
  hint (prediction_engine a1 f1) = hint (prediction_engine a2 f2)
  /\ hint (prediction_engine a1 f1)
     = ["💡 **Try selecting a city the AI has studied:** Bengaluru, Mumbai, New Delhi, Chennai, or Hyderabad."].
Proof.
  intros H1 H2. apply py_in_not_In in H1, H2.
  unfold prediction_engine. rewrite H1, H2. simpl. split; reflexivity.
Qed.

Lemma advisory_hint_is_fixed_witness :
  let a1 := demo_artifacts (constant_model (S754_zero false)) in
  let a2 := {| model := failing_model "unused";
               le_country := label_encoder []; le_state := label_encoder [];
               le_city := label_encoder ["Pune"];
               le_type := label_encoder []; le_condition := label_encoder [] |} in
  let hint m := flat_map (fun el => match el with StInfo s => [s] | _ => [] end) (shown m) in
  hint (prediction_engine a1 (demo_form "Sikkim" "Gangtok"))
  = hint (prediction_engine a2 (demo_form "Karnataka" "Bengaluru")).
Proof.
  intros a1 a2.
  apply (advisory_hint_is_fixed a1 a2 (demo_form "Sikkim" "Gangtok")
           (demo_form "Karnataka" "Bengaluru"));
    apply py_in_not_In; reflexivity.
Defined.

(** ** Failures behind the guard *)

(** C4. Once the guard has passed the city, whichever call fails first
    (an encoder's [transform] or the model's [predict]), the exception
    is caught: the one thing shown is "Prediction error: " followed by
    the exception's text, and the engine ends normally. *)
Theorem request_failure_is_reported (a : artifacts) (f : form) (msg : string) :
  In (selected_city f) (classes_ (le_city a)) ->
  request_failure a f msg ->
  shown (prediction_engine a f) = [StError ("Prediction error: " ++ msg)%string]
  /\ ended (prediction_engine a f) = Return tt.
Proof.
  intros Hin Hfail. apply py_in_In in Hin.
  destruct (predict_logic_failure a f msg Hfail) as [Hshown Hended].
  unfold prediction_engine. rewrite Hin. simpl negb. cbv iota.
  destruct (shown_try_except (predict_logic a f)
              (fun e => st_error ("Prediction error: " ++ e)%string) msg Hended)
    as [Hs He].
  rewrite Hs, He, Hshown. split; reflexivity.
Qed.

Lemma request_failure_is_reported_witness :
  shown (prediction_engine (demo_artifacts (failing_model "model is broken"))
                           (demo_form "Maharashtra" "Mumbai"))
  = [StError "Prediction error: model is broken"].
Proof.
  apply (request_failure_is_reported
           (demo_artifacts (failing_model "model is broken"))
           (demo_form "Maharashtra" "Mumbai") "model is broken").
  - apply py_in_In. reflexivity.
  - apply (Predict_raises _ _ _ 0 2 3 1 1); reflexivity.
Defined.

(** ** The feature vector *)

Lemma calls_prediction_engine (a : artifacts) (f : form) :
  calls (prediction_engine a f)
  = if py_in (selected_city f) (classes_ (le_city a))
    then calls (predict_logic a f) else [].
Proof.
  unfold prediction_engine.
  destruct (py_in (selected_city f) (classes_ (le_city a))); simpl; [| reflexivity].
  destruct (predict_logic a f) as [t [x | msg | ]]; unfold calls, trace; simpl;
    try reflexivity.
  rewrite flat_map_app. simpl. now rewrite app_nil_r.
Qed.

Lemma calls_bind_perform {A B} (c : call) (r : pyresult A) (k : A -> M B) :
  calls (bind (perform c r) k)
  = c :: match r with Value v => calls (k v) | Exception _ => [] end.
Proof.
  destruct r as [v | msg]; [| reflexivity].
  rewrite bind_perform_Value. reflexivity.
Qed.

(** What the [try] body calls, as far as it gets. *)
Ltac next_call_in H :=
  first [rewrite encode_perform in H | rewrite infer_perform in H];
  rewrite calls_bind_perform in H;
  destruct H as [H | H]; [discriminate H |];
  match type of H with
  | context [match ?r with Value _ => _ | Exception _ => _ end] =>
      destruct r eqn:?; [| contradiction]
  end.

(** C2. Whenever the engine calls [predict], the frame it passes has the
    one row [year, country code, state code, city code, type code, size,
    bedrooms, condition code, distance], under the column names in that
    order; the year, size, bedrooms and distance are the form's values
    and each code is what the matching encoder gave for the form's
    label (for the country, for "India"). *)
Theorem feature_vector_order (a : artifacts) (f : form) (input_data : DataFrame) :
  In (Predict input_data) (calls (prediction_engine a f)) ->
  exists country_enc state_enc city_enc type_enc condition_enc,
    encoded (le_country a) "India" = Value country_enc
    /\ encoded (le_state a) (selected_state f) = Value state_enc
    /\ encoded (le_city a) (selected_city f) = Value city_enc
    /\ encoded (le_type a) (prop_type f) = Value type_enc
    /\ encoded (le_condition a) (condition f) = Value condition_enc
    /\ input_data
       = {| rows := [[PyInt (year f); PyInt country_enc; PyInt state_enc;
                      PyInt city_enc; PyInt type_enc; PyInt (size f);
                      PyInt (bedrooms f); PyInt condition_enc;
                      PyFloat (distance f)]];
            columns := ["Year"; "Country_Enc"; "State_Enc"; "City_Enc";
                        "Type_Enc"; "Size_sqm"; "Bedrooms"; "Condition_Enc";
                        "Distance_km"] |}.
Proof.
  rewrite calls_prediction_engine.
  destruct (py_in (selected_city f) (classes_ (le_city a))); [| intros []].
  unfold predict_logic. intros H.
  do 5 next_call_in H.
  rewrite infer_perform, calls_bind_perform in H.
  destruct H as [H | H].
  - injection H as <-. do 5 eexists. repeat split.
  - destruct (predicted _ _); simpl in H; contradiction.
Qed.

Lemma feature_vector_order_witness :
  exists country_enc state_enc city_enc type_enc condition_enc,
    encoded (label_encoder ["India"]) "India" = Value country_enc
    /\ encoded (label_encoder ["Delhi"; "Karnataka"; "Maharashtra"; "Sikkim";
                               "Tamil Nadu"; "Telangana"]) "Telangana"
       = Value state_enc
    /\ encoded (label_encoder ["Bengaluru"; "Chennai"; "Hyderabad"; "Mumbai";
                               "New Delhi"]) "Hyderabad" = Value city_enc
    /\ encoded (label_encoder ["Apartment"; "House"; "Villa"]) "House"
       = Value type_enc
    /\ encoded (label_encoder ["Good"; "New"; "Old"]) "New" = Value condition_enc
    /\ make_input_data 2024 0 5 2 1 100 3 1 (Float64.of_dyadic 2 0)
       = {| rows := [[PyInt 2024; PyInt country_enc; PyInt state_enc;
                      PyInt city_enc; PyInt type_enc; PyInt 100; PyInt 3;
                      PyInt condition_enc; PyFloat (Float64.of_dyadic 2 0)]];
            columns := ["Year"; "Country_Enc"; "State_Enc"; "City_Enc";
                        "Type_Enc"; "Size_sqm"; "Bedrooms"; "Condition_Enc";
                        "Distance_km"] |}.
Proof.
  apply (feature_vector_order
           (demo_artifacts (constant_model (S754_zero false)))
           (demo_form "Telangana" "Hyderabad")).
  vm_compute. do 5 right. left. reflexivity.
Defined.

(** ** Conversion and presentation *)

Lemma round_half_even_nearest (m : positive) (e : Z) :
  e < 0 ->
  2 * Z.abs (Float64.round_half_even m e * 2 ^ (- e) - Zpos m) <= 2 ^ (- e).
Proof.
  intros He. unfold Float64.round_half_even.
  destruct (Z.leb_spec 0 e) as [Hle | _]; [lia |].
  assert (Hd : 0 < 2 ^ (- e)) by (apply Z.pow_pos_nonneg; lia).
  set (d := 2 ^ (- e)) in *.
  pose proof (Z.div_mod (Zpos m) d ltac:(lia)) as Hdm.
  pose proof (Z.mod_pos_bound (Zpos m) d Hd) as Hr.
  set (q := Zpos m / d) in *. set (r := Zpos m mod d) in *.
  assert (Hq : q * d - Zpos m = - r) by lia.
  assert (Hq1 : (q + 1) * d - Zpos m = d - r) by lia.
  destruct (Z.compare_spec (2 * r) d) as [Heq | Hlt | Hgt].
  - destruct (Z.even q); [rewrite Hq | rewrite Hq1]; lia.
  - rewrite Hq. lia.
  - rewrite Hq1. lia.
Qed.

Lemma round_half_even_nonneg (m : positive) (e : Z) :
  0 <= Float64.round_half_even m e.
Proof.
  unfold Float64.round_half_even.
  destruct (Z.leb_spec 0 e) as [Hle | Hlt].
  - apply Z.mul_nonneg_nonneg; [lia | apply Z.pow_nonneg; lia].
  - assert (Hd : 0 < 2 ^ (- e)) by (apply Z.pow_pos_nonneg; lia).
    assert (0 <= Zpos m / 2 ^ (- e)) by (apply Z.div_pos; lia).
    destruct (2 * (Zpos m mod 2 ^ (- e)) ?= 2 ^ (- e));
      [destruct (Z.even _) | |]; lia.
Qed.

Lemma round_half_even_ties (m : positive) (e : Z) :
  e < 0 ->
  2 * Z.abs (Float64.round_half_even m e * 2 ^ (- e) - Zpos m) = 2 ^ (- e) ->
  Z.even (Float64.round_half_even m e) = true.
Proof.
  intros He. unfold Float64.round_half_even.
  destruct (Z.leb_spec 0 e) as [Hle | _]; [lia |].
  assert (Hd : 0 < 2 ^ (- e)) by (apply Z.pow_pos_nonneg; lia).
  set (d := 2 ^ (- e)) in *.
  pose proof (Z.div_mod (Zpos m) d ltac:(lia)) as Hdm.
  pose proof (Z.mod_pos_bound (Zpos m) d Hd) as Hr.
  set (q := Zpos m / d) in *. set (r := Zpos m mod d) in *.
  assert (Hq : q * d - Zpos m = - r) by lia.
  assert (Hq1 : (q + 1) * d - Zpos m = d - r) by lia.
  destruct (Z.compare_spec (2 * r) d) as [Heq | Hlt | Hgt].
  - intros _. destruct (Z.even q) eqn:Hev; [exact Hev |].
    rewrite Z.add_1_r, Z.even_succ, <- Z.negb_even, Hev. reflexivity.
  - rewrite Hq. lia.
  - rewrite Hq1. lia.
Qed.

(** A finite value is written as the whole number nearest to it, the
    even one when two are equally near. *)
Lemma format_comma_0f_finite (x : float) :
  Float64.is_finite x = true ->
  exists n, 0 <= n
    /\ format_comma_0f x = whole_text (is_negative x) n
    /\ nearest_whole x n
    /\ ties_to_even x n.
Proof.
  destruct x as [s | s | | s m e]; simpl; try discriminate; intros _.
  - exists 0. repeat split. lia.
  - exists (Float64.round_half_even m e). split; [apply round_half_even_nonneg |].
    split; [reflexivity |]. split; [| apply round_half_even_ties].
    destruct (Z.leb_spec 0 e) as [Hle | Hlt].
    + unfold Float64.round_half_even.
      destruct (Z.leb_spec 0 e); [reflexivity | lia].
    + now apply round_half_even_nearest.
Qed.

(** A value that is not finite is written as [inf], [-inf] or [nan]. *)
Lemma format_comma_0f_not_finite (x : float) :
  Float64.is_finite x = false ->
  format_comma_0f x = "inf" \/ format_comma_0f x = "-inf"
  \/ format_comma_0f x = "nan".
Proof.
  destruct x as [s | [|] | | s m e]; simpl; try discriminate; auto.
Qed.

(** *** The characters of a whole number's text *)

Lemma all_chars_string_of_uint (d : Decimal.uint) :
  all_chars digit_or_comma (NilEmpty.string_of_uint d) = true.
Proof. induction d; simpl; auto. Qed.

Lemma all_chars_decimal (n : Z) : all_chars digit_or_comma (decimal n) = true.
Proof.
  unfold decimal, NilZero.string_of_uint.
  destruct (N.to_uint (Z.to_N n)) eqn:E; try reflexivity;
    rewrite <- E; apply all_chars_string_of_uint.
Qed.

Lemma all_chars_of_list (p : ascii -> bool) (s : string) :
  all_chars p s = forallb p (list_ascii_of_string s).
Proof. induction s; simpl; congruence. Qed.

Lemma all_chars_group_thousands (s : string) :
  all_chars digit_or_comma s = true ->
  all_chars digit_or_comma (group_thousands s) = true.
Proof.
  rewrite all_chars_of_list. unfold group_thousands.
  induction (list_ascii_of_string s) as [| c l IH]; simpl; [reflexivity |].
  intros H. apply andb_true_iff in H as [Hc Hl]. specialize (IH Hl).
  destruct (fold_right group_step (EmptyString, 0%nat) l) as [out k].
  simpl in *. destruct (Nat.eqb k 3); simpl; rewrite Hc, IH; reflexivity.
Qed.

Lemma whole_text_chars (negative : bool) (n : Z) :
  exists body, whole_text negative n = (sign_str negative ++ body)%string
               /\ all_chars digit_or_comma body = true.
Proof.
  exists (group_thousands (decimal n)). split; [reflexivity |].
  apply all_chars_group_thousands, all_chars_decimal.
Qed.

Lemma whole_text_not_inf (negative : bool) (n : Z) :
  whole_text negative n <> "inf".
Proof.
  destruct (whole_text_chars negative n) as [body [-> Hbody]].
  destruct negative; simpl; [discriminate |].
  intros ->. discriminate Hbody.
Qed.

Lemma exchange_rate_exact :
  exchange_rate = S754_finite false (173 * 2 ^ 45) (-46).
Proof. reflexivity. Qed.

(** C3, as amended. When the city is known and the encoders and the
    model all answer, the model's answer being a binary64 float, the
    engine shows the heading with the city's name, the price in INR and
    the price in USD, and ends normally.  The INR value is the binary64
    product of the model's USD value and the rate 173/2 = 86.5.  Each of
    the two values, when finite, is written as the whole number nearest
    to it, and as the even one of the two when it lies exactly halfway
    between two whole numbers; a value that is not finite is written as
    inf, -inf or nan. *)
Theorem success_presentation (a : artifacts) (f : form)
    (country_enc state_enc city_enc type_enc condition_enc : Z)
    (prediction_usd : float) :
  In (selected_city f) (classes_ (le_city a)) ->
  encoded (le_country a) "India" = Value country_enc ->
  encoded (le_state a) (selected_state f) = Value state_enc ->
  encoded (le_city a) (selected_city f) = Value city_enc ->
  encoded (le_type a) (prop_type f) = Value type_enc ->
  encoded (le_condition a) (condition f) = Value condition_enc ->
  predicted (model a)
    (make_input_data (year f) country_enc state_enc city_enc type_enc
                     (size f) (bedrooms f) condition_enc (distance f))
    = Value prediction_usd ->
  let prediction_inr :=
    Float64.mul prediction_usd (S754_finite false (173 * 2 ^ 45) (-46)) in
  shown (prediction_engine a f)
    = [StSubheader ("Estimated Value in " ++ selected_city f)%string;
       StMetric "Price in INR" ("₹" ++ format_comma_0f prediction_inr)%string;
       StMetric "Price in USD" ("$" ++ format_comma_0f prediction_usd)%string]
  /\ ended (prediction_engine a f) = Return tt
  /\ forall x, x = prediction_inr \/ x = prediction_usd ->
       if Float64.is_finite x
       then exists n, 0 <= n
              /\ format_comma_0f x = whole_text (is_negative x) n
              /\ nearest_whole x n
              /\ ties_to_even x n
       else format_comma_0f x = "inf" \/ format_comma_0f x = "-inf"
            \/ format_comma_0f x = "nan".
Proof.
  intros Hin Hc Hs Hl Ht Hk Hp prediction_inr. apply py_in_In in Hin.
  split; [| split].
  - unfold prediction_engine. rewrite Hin. simpl negb. cbv iota.
    unfold predict_logic. repeat run_call. reflexivity.
  - unfold prediction_engine. rewrite Hin. simpl negb. cbv iota.
    unfold predict_logic. repeat run_call. reflexivity.
  - intros x _. destruct (Float64.is_finite x) eqn:E.
    + now apply format_comma_0f_finite.
    + now apply format_comma_0f_not_finite.
Qed.

Lemma success_presentation_witness :
  shown (prediction_engine (demo_artifacts (constant_model (Float64.of_dyadic 100000 0)))
                           (demo_form "Maharashtra" "Mumbai"))
  = [StSubheader "Estimated Value in Mumbai";
     StMetric "Price in INR" "₹8,650,000";
     StMetric "Price in USD" "$100,000"].
Proof.
  apply (success_presentation
           (demo_artifacts (constant_model (Float64.of_dyadic 100000 0)))
           (demo_form "Maharashtra" "Mumbai") 0 2 3 1 1
           (Float64.of_dyadic 100000 0));
    try reflexivity.
  apply py_in_In. reflexivity.
Defined.

(** C3 fails as stated.  The city is known, every encoder answers and
    the model answers with the finite value 2^1023; the product with
    86.5 overflows, and what stands under "Price in INR" is no whole
    number. *)
Lemma overflow_is_not_a_whole_number :
  In (selected_city mumbai_form) (classes_ (le_city huge_artifacts))
  /\ encoded (le_country huge_artifacts) "India" = Value 0
  /\ encoded (le_state huge_artifacts) (selected_state mumbai_form) = Value 2
  /\ encoded (le_city huge_artifacts) (selected_city mumbai_form) = Value 3
  /\ encoded (le_type huge_artifacts) (prop_type mumbai_form) = Value 1
  /\ encoded (le_condition huge_artifacts) (condition mumbai_form) = Value 1
  /\ predicted (model huge_artifacts)
       (make_input_data 2024 0 2 3 1 100 3 1 (distance mumbai_form))
     = Value (S754_finite false (2 ^ 52) 971)
  /\ In (StMetric "Price in INR" "₹inf")
        (shown (prediction_engine huge_artifacts mumbai_form))
  /\ ~ exists negative n,
         In (StMetric "Price in INR" ("₹" ++ whole_text negative n)%string)
            (shown (prediction_engine huge_artifacts mumbai_form)).
Proof.
  split; [apply py_in_In; reflexivity |].
  do 6 (split; [reflexivity |]).
  assert (Hshown : exists usd_text,
             shown (prediction_engine huge_artifacts mumbai_form)
             = [StSubheader "Estimated Value in Mumbai";
                StMetric "Price in INR" "₹inf";
                StMetric "Price in USD" usd_text]).
  { eexists. vm_compute. reflexivity. }
  destruct Hshown as [usd_text ->].
  split; [simpl; auto |].
  intros [negative [n [H | [H | [H | []]]]]].
  - discriminate H.
  - injection H as H. symmetry in H. revert H. apply whole_text_not_inf.
  - discriminate H.
Qed.

(** ** Startup *)

Lemma check_required_cons (w : world) (g : string) (rest : list string) :
  check_required w (g :: rest)
  = if path_exists w g
    then (Call (OsPathExists g) :: trace (check_required w rest),
          ended (check_required w rest))
    else ([Call (OsPathExists g); Show (StError (missing_file_message g))], Stop).
Proof.
  cbn [check_required]. unfold os_path_exists. rewrite bind_perform_Value.
  destruct (path_exists w g); [| reflexivity].
  destruct (check_required w rest) as [t e]. reflexivity.
Qed.

Lemma check_required_all_present (w : world) (files : list string) :
  (forall g, In g files -> path_exists w g = true) ->
  check_required w files = (exists_calls files, Return tt).
Proof.
  induction files as [| g rest IH]; intros Hall; [reflexivity |].
  rewrite check_required_cons, (Hall g (or_introl eq_refl)).
  rewrite IH by (intros; apply Hall; now right). reflexivity.
Qed.

Lemma check_required_first_missing (w : world) (before : list string)
    (file : string) (after : list string) :
  (forall g, In g before -> path_exists w g = true) ->
  path_exists w file = false ->
  check_required w (before ++ file :: after)
  = (exists_calls (before ++ [file]) ++ [Show (StError (missing_file_message file))],
     Stop).
Proof.
  intros Hbefore Hfile. induction before as [| g before IH]; simpl app.
  - rewrite check_required_cons, Hfile. reflexivity.
  - rewrite check_required_cons, (Hbefore g (or_introl eq_refl)).
    rewrite IH by (intros; apply Hbefore; now right). reflexivity.
Qed.

(** Either every file is there and all were looked at, or the loop
    stopped at the first one that is not. *)
Lemma check_required_cases (w : world) (files : list string) :
  check_required w files = (exists_calls files, Return tt)
  \/ exists before file after,
       files = before ++ file :: after
       /\ check_required w files
          = (exists_calls (before ++ [file])
               ++ [Show (StError (missing_file_message file))], Stop).
Proof.
  induction files as [| g rest IH]; [left; reflexivity |].
  rewrite check_required_cons. destruct (path_exists w g) eqn:Hg.
  - destruct IH as [-> | (before & file & after & -> & ->)].
    + left. reflexivity.
    + right. exists (g :: before), file, after. split; reflexivity.
  - right. exists [], g, rest. split; reflexivity.
Qed.

Lemma app_py_first_missing (w : world) (f : form) (before : list string)
    (file : string) (after : list string) :
  required_files = before ++ file :: after ->
  (forall g, In g before -> path_exists w g = true) ->
  path_exists w file = false ->
  app_py w f
  = (exists_calls (before ++ [file]) ++ [Show (StError (missing_file_message file))],
     Stop).
Proof.
  intros Hsplit Hbefore Hfile. unfold app_py. rewrite Hsplit.
  rewrite (check_required_first_missing w before file after Hbefore Hfile).
  reflexivity.
Qed.

Lemma shown_exists_calls {A} (files : list string) (rest : list event) (e : ending A) :
  shown (exists_calls files ++ rest, e) = shown (rest, e).
Proof.
  unfold shown, trace. simpl. rewrite flat_map_app.
  induction files; simpl; auto.
Qed.

Lemma calls_exists_calls {A} (files : list string) (rest : list event) (e : ending A) :
  calls (exists_calls files ++ rest, e) = map OsPathExists files ++ calls (rest, e).
Proof.
  unfold calls, trace. simpl. rewrite flat_map_app. f_equal.
  induction files; simpl; congruence.
Qed.

Lemma app_prefix_before {A} (l1 l2 pre post : list A) (x : A) :
  l1 ++ l2 = pre ++ x :: post ->
  ~ In x l1 ->
  exists pre', pre = l1 ++ pre'.
Proof.
  revert pre. induction l1 as [| y l1 IH]; intros pre Heq Hnot.
  - now exists pre.
  - destruct pre as [| p pre]; simpl in Heq; injection Heq as Hhead Htail.
    + subst. exfalso. apply Hnot. now left.
    + subst p. destruct (IH pre Htail) as [pre' ->].
      * intros Hin. apply Hnot. now right.
      * now exists pre'.
Qed.

Lemma required_files_NoDup : NoDup required_files.
Proof.
  unfold required_files.
  repeat (constructor; [simpl; intuition discriminate |]). constructor.
Qed.

(** C10. The startup loop stops at the first file of [required_files]
    that does not exist: the files before it are looked at, then it,
    then the one error naming it is shown and the script stops.  Files
    after it are not looked at and not named, missing or not. *)
Theorem startup_names_first_missing_only (w : world) (f : form)
    (before : list string) (file : string) (after : list string) :
  required_files = before ++ file :: after ->
  (forall g, In g before -> path_exists w g = true) ->
  path_exists w file = false ->
  trace (app_py w f)
    = map (fun g => Call (OsPathExists g)) (before ++ [file])
        ++ [Show (StError ("Missing file: " ++ file
                             ++ ". Please run `python train_model.py` first.")%string)]
  /\ ended (app_py w f) = Stop.
Proof.
  intros Hsplit Hbefore Hfile.
  rewrite (app_py_first_missing w f before file after Hsplit Hbefore Hfile).
  split; reflexivity.
Qed.

Lemma startup_names_first_missing_only_witness :
  let present file :=
    negb (String.eqb file "le_state.pkl" || String.eqb file "le_type.pkl") in
  trace (app_py (demo_world present (failing_model "unused") 2026)
                (demo_form "Goa" "Panaji"))
  = [Call (OsPathExists "ghormach_model.pkl");
     Call (OsPathExists "le_country.pkl");
     Call (OsPathExists "le_state.pkl");
     Show (StError "Missing file: le_state.pkl. Please run `python train_model.py` first.")].
Proof.
  intros present.
  apply (startup_names_first_missing_only
           (demo_world present (failing_model "unused") 2026)
           (demo_form "Goa" "Panaji")
           ["ghormach_model.pkl"; "le_country.pkl"] "le_state.pkl"
           ["le_city.pkl"; "le_type.pkl"; "le_condition.pkl"]).
  - reflexivity.
  - intros g [<- | [<- | []]]; reflexivity.
  - reflexivity.
Defined.

(** C5. No artifact is loaded before all six files have been looked at:
    whatever precedes a [joblib.load] in a run contains the existence
    check of each required file.  And when exactly one required file is
    absent, the run shows one error, naming that file and telling to
    run the training script, then stops: no file is loaded, no widget is
    drawn, no encoder or model is called. *)
Theorem startup_checks_then_refuses (w : world) (f : form) :
  (forall pre file post,
      trace (app_py w f) = pre ++ Call (JoblibLoad file) :: post ->
      forall g, In g required_files -> In (Call (OsPathExists g)) pre)
  /\ (forall file,
        In file required_files ->
        path_exists w file = false ->
        (forall g, In g required_files -> g <> file -> path_exists w g = true) ->
        shown (app_py w f)
          = [StError ("Missing file: " ++ file
                        ++ ". Please run `python train_model.py` first.")%string]
        /\ ended (app_py w f) = Stop
        /\ forall c, In c (calls (app_py w f)) -> exists g, c = OsPathExists g).
Proof.
  split.
  - intros pre file post Htrace g Hg.
    assert (Hnoload : forall files, ~ In (Call (JoblibLoad file)) (exists_calls files)).
    { intros files Hin. apply in_map_iff in Hin as [x [Hx _]]. discriminate Hx. }
    unfold app_py in Htrace.
    destruct (check_required_cases w required_files)
      as [Hall | (before & missing & after & Hsplit & Hstop)].
    + rewrite Hall in Htrace. unfold bind at 1 in Htrace.
      destruct (a <- load_artifacts w;; form_and_engine w a f) as [t e].
      change (exists_calls required_files ++ t = pre ++ Call (JoblibLoad file) :: post)
        in Htrace.
      destruct (app_prefix_before _ _ _ _ _ Htrace (Hnoload _)) as [pre' ->].
      apply in_or_app. left. unfold exists_calls.
      apply in_map_iff. now exists g.
    + rewrite Hstop in Htrace. unfold bind, trace in Htrace. simpl in Htrace.
      exfalso.
      assert (Hin : In (Call (JoblibLoad file))
                       (exists_calls (before ++ [missing])
                          ++ [Show (StError (missing_file_message missing))])).
      { rewrite Htrace. apply in_or_app. right. now left. }
      apply in_app_or in Hin as [Hin | [Hin | []]].
      * exact (Hnoload _ Hin).
      * discriminate Hin.
  - intros file Hin Hfile Hothers.
    destruct (in_split _ _ Hin) as (before & after & Hsplit).
    assert (Hbefore : forall g, In g before -> path_exists w g = true).
    { intros g Hg. apply Hothers.
      - rewrite Hsplit. apply in_or_app. now left.
      - intros ->. pose proof required_files_NoDup as Hnd.
        rewrite Hsplit in Hnd. apply NoDup_remove_2 in Hnd.
        apply Hnd. apply in_or_app. now left. }
    rewrite (app_py_first_missing w f before file after Hsplit Hbefore Hfile).
    rewrite shown_exists_calls, calls_exists_calls. repeat split.
    intros c Hc. simpl in Hc. rewrite app_nil_r in Hc.
    apply in_map_iff in Hc as [g [<- _]]. now exists g.
Qed.

Lemma startup_checks_then_refuses_witness :
  let present file := negb (String.eqb file "le_city.pkl") in
  shown (app_py (demo_world present (failing_model "unused") 2026)
                (demo_form "Goa" "Panaji"))
  = [StError "Missing file: le_city.pkl. Please run `python train_model.py` first."].
Proof.
  intros present.
  apply (proj2 (startup_checks_then_refuses
                  (demo_world present (failing_model "unused") 2026)
                  (demo_form "Goa" "Panaji")) "le_city.pkl").
  - simpl. tauto.
  - reflexivity.
  - intros g Hg Hne. simpl in Hg.
    destruct Hg as [<- | [<- | [<- | [<- | [<- | [<- | []]]]]]];
      try reflexivity.
    now contradiction Hne.
Defined.

(** ** The geography catalog *)

Lemma insert_Sorted (x : string) (l : list string) :
  Sorted str_le l -> Sorted str_le (insert x l).
Proof.
  induction l as [| y l IH]; intros Hl; simpl.
  - repeat constructor.
  - destruct (x <=? y)%string eqn:Hxy.
    + constructor; [assumption | constructor; exact Hxy].
    + assert (Hyx : str_le y x).
      { destruct (String.leb_total x y) as [H | H]; [congruence | exact H]. }
      inversion Hl as [| ? ? Hl' Hhd]; subst.
      constructor; [now apply IH |].
      destruct l as [| z l]; simpl.
      * constructor. exact Hyx.
      * destruct (x <=? z)%string; constructor;
          [exact Hyx | inversion Hhd; assumption].
Qed.

Lemma sorted_Sorted (l : list string) : Sorted str_le (sorted l).
Proof.
  induction l as [| x l IH]; simpl; [constructor | now apply insert_Sorted].
Qed.

Lemma insert_Permutation (x : string) (l : list string) :
  Permutation (x :: l) (insert x l).
Proof.
  induction l as [| y l IH]; simpl; [reflexivity |].
  destruct (x <=? y)%string; [reflexivity |].
  rewrite perm_swap. now constructor.
Qed.

Lemma sorted_Permutation (l : list string) : Permutation l (sorted l).
Proof.
  induction l as [| x l IH]; simpl; [constructor |].
  rewrite <- insert_Permutation. now constructor.
Qed.

Lemma dict_get_In {V} (d : dict V) (k : string) (v : V) :
  dict_get d k = Some v -> In (k, v) d.
Proof.
  induction d as [| [k' v'] d IH]; simpl; [discriminate |].
  destruct (String.eqb_spec k k') as [-> | Hne].
  - intros [= ->]. now left.
  - intros H. right. now apply IH.
Qed.

Lemma dict_get_key {V} (d : dict V) (k : string) :
  In k (dict_keys d) -> exists v, dict_get d k = Some v.
Proof.
  induction d as [| [k' v'] d IH]; simpl; [intros [] |].
  destruct (String.eqb_spec k k') as [-> | Hne].
  - intros _. now exists v'.
  - intros [H | H]; [congruence | now apply IH].
Qed.

Lemma indian_geography_lists_nonempty (region : string) (localities : list string) :
  In (region, localities) indian_geography -> localities <> [].
Proof.
  assert (H : Forall (fun p : string * list string => snd p <> []) indian_geography).
  { unfold indian_geography. repeat (constructor; [discriminate |]). constructor. }
  rewrite Forall_forall in H. intros Hin. exact (H _ Hin).
Qed.

Lemma distinct_NoDup (l : list string) : distinct l = true -> NoDup l.
Proof.
  induction l as [| x l IH]; simpl; intros H; constructor;
    apply andb_true_iff in H as [Hx Hl].
  - apply py_in_not_In. now destruct (py_in x l).
  - now apply IH.
Qed.

Lemma values_disjoint {V} (d : list (string * list V)) :
  NoDup (flat_map snd d) ->
  forall p1 p2 x,
    In p1 d -> In p2 d -> In x (snd p1) -> In x (snd p2) -> p1 = p2.
Proof.
  induction d as [| p d IH]; simpl; intros Hnd p1 p2 x H1 H2 Hx1 Hx2;
    [contradiction |].
  assert (Hsep : forall q y, In q d -> In y (snd q) -> In y (snd p) -> False).
  { intros q y Hq Hy Hyp. clear IH H1 H2.
    induction (snd p) as [| z l IHl]; [contradiction |].
    simpl in Hnd. inversion Hnd as [| ? ? Hz Hnd']; subst.
    destruct Hyp as [-> | Hyp]; [| now apply IHl].
    apply Hz. apply in_or_app. right.
    apply in_flat_map. now exists q. }
  assert (Hnd' : NoDup (flat_map snd d)).
  { clear -Hnd. induction (snd p) as [| z l IHl]; [exact Hnd |].
    simpl in Hnd. inversion Hnd; subst. now apply IHl. }
  destruct H1 as [<- | H1], H2 as [<- | H2].
  - reflexivity.
  - exfalso. eapply Hsep; eassumption.
  - exfalso. eapply Hsep; eassumption.
  - eapply IH; eassumption.
Qed.

(** C6. The states offered are the states of the catalog in ascending
    alphabetical order, and for every state of the catalog the cities
    offered once it is selected are the cities the catalog lists for
    it, a non-empty list, in ascending alphabetical order; these two
    lists are the options of the State and the City selectbox. *)
Theorem offered_lists_are_sorted (region : string) :
  In region (dict_keys indian_geography) ->
  Sorted str_le states
  /\ Permutation (dict_keys indian_geography) states
  /\ exists raw localities,
       dict_get indian_geography region = Some raw
       /\ cities region = Some localities
       /\ Permutation raw localities
       /\ localities <> []
       /\ Sorted str_le localities
       /\ forall w a f,
            selected_state f = region ->
            exists rest,
              trace (form_and_engine w a f)
              = Show (StSelectbox "State" (map PyStr states))
                  :: Show (StSelectbox "City" (map PyStr localities)) :: rest.
Proof.
  intros Hregion. split; [apply sorted_Sorted |].
  split; [apply sorted_Permutation |].
  destruct (dict_get_key _ _ Hregion) as [raw Hraw].
  exists raw, (sorted raw). unfold cities. rewrite Hraw.
  split; [reflexivity |]. split; [reflexivity |].
  split; [apply sorted_Permutation |].
  split; [| split; [apply sorted_Sorted |]].
  - intros Hnil.
    apply (indian_geography_lists_nonempty region raw (dict_get_In _ _ _ Hraw)).
    apply Permutation_nil. rewrite <- Hnil. symmetry. apply sorted_Permutation.
  - intros w a f <-. unfold form_and_engine.
    unfold st_selectbox at 1. rewrite bind_Return. cbv beta.
    unfold dict_getitem. rewrite Hraw. unfold eval. rewrite bind_Return. cbv beta.
    unfold st_selectbox at 1. rewrite bind_Return.
    unfold trace at 1 2. cbn [fst app]. eexists. reflexivity.
Qed.

Lemma offered_lists_are_sorted_witness :
  Sorted str_le states
  /\ Permutation (dict_keys indian_geography) states
  /\ exists raw localities,
       dict_get indian_geography "Goa" = Some raw
       /\ cities "Goa" = Some localities
       /\ Permutation raw localities
       /\ localities <> []
       /\ Sorted str_le localities
       /\ forall w a f,
            selected_state f = "Goa" ->
            exists rest,
              trace (form_and_engine w a f)
              = Show (StSelectbox "State" (map PyStr states))
                  :: Show (StSelectbox "City" (map PyStr localities)) :: rest.
Proof.
  apply (offered_lists_are_sorted "Goa").
  unfold dict_keys. simpl. tauto.
Defined.

(** C7. No city of the catalog stands under two states: two entries of
    [indian_geography] that both list a city are the same entry. *)
Theorem each_city_in_one_state (region1 region2 : string)
    (localities1 localities2 : list string) (city : string) :
  In (region1, localities1) indian_geography ->
  In (region2, localities2) indian_geography ->
  In city localities1 ->
  In city localities2 ->
  region1 = region2.
Proof.
  intros H1 H2 Hc1 Hc2.
  assert (Hnd : NoDup (flat_map snd indian_geography))
    by (apply distinct_NoDup; vm_compute; reflexivity).
  pose proof (values_disjoint indian_geography Hnd _ _ city H1 H2 Hc1 Hc2) as Heq.
  now injection Heq.
Qed.

Lemma each_city_in_one_state_witness : "Telangana" = "Telangana".
Proof.
  apply (each_city_in_one_state "Telangana" "Telangana"
           ["Hyderabad"; "Warangal"; "Nizamabad"]
           ["Hyderabad"; "Warangal"; "Nizamabad"] "Hyderabad");
    simpl; tauto.
Defined.

(** ** A whole run *)

Lemma load_artifacts_run (w : world) (a : artifacts) :
  unpickled w a -> load_artifacts w = (load_calls, Return a).
Proof.
  intros (Hm & Hc & Hs & Hl & Ht & Hk). unfold load_artifacts.
  unfold joblib_load_model, joblib_load_encoder.
  rewrite Hm, Hc, Hs, Hl, Ht, Hk. destruct a. reflexivity.
Qed.

(** Either every load succeeds, or the first one that fails ends the
    loading with its exception. *)
Lemma load_artifacts_cases (w : world) :
  (exists a, unpickled w a /\ load_artifacts w = (load_calls, Return a))
  \/ exists n msg, load_artifacts w = (firstn n load_calls, Raise msg).
Proof.
  unfold load_artifacts, joblib_load_model, joblib_load_encoder.
  destruct (unpickle_model w "ghormach_model.pkl") as [m | msg] eqn:Hm;
    [| right; exists 1%nat, msg; reflexivity].
  destruct (unpickle_encoder w "le_country.pkl") as [c | msg] eqn:Hc;
    [| right; exists 2%nat, msg; reflexivity].
  destruct (unpickle_encoder w "le_state.pkl") as [s | msg] eqn:Hs;
    [| right; exists 3%nat, msg; reflexivity].
  destruct (unpickle_encoder w "le_city.pkl") as [l | msg] eqn:Hl;
    [| right; exists 4%nat, msg; reflexivity].
  destruct (unpickle_encoder w "le_type.pkl") as [t | msg] eqn:Ht;
    [| right; exists 5%nat, msg; reflexivity].
  destruct (unpickle_encoder w "le_condition.pkl") as [k | msg] eqn:Hk;
    [| right; exists 6%nat, msg; reflexivity].
  left.
  exists {| model := m; le_country := c; le_state := s; le_city := l;
            le_type := t; le_condition := k |}.
  split; [repeat split; assumption | reflexivity].
Qed.

Lemma app_py_run (w : world) (f : form) (a : artifacts) :
  (forall file, In file required_files -> path_exists w file = true) ->
  unpickled w a ->
  app_py w f
  = (exists_calls required_files ++ load_calls ++ trace (form_and_engine w a f),
     ended (form_and_engine w a f)).
Proof.
  intros Hall Ha. unfold app_py.
  rewrite (check_required_all_present w required_files Hall).
  rewrite bind_Return. cbv beta. rewrite (load_artifacts_run w a Ha), bind_Return.
  reflexivity.
Qed.

Lemma app_py_load_fails (w : world) (f : form) (n : nat) (msg : string) :
  (forall file, In file required_files -> path_exists w file = true) ->
  load_artifacts w = (firstn n load_calls, Raise msg) ->
  app_py w f = (exists_calls required_files ++ firstn n load_calls, Raise msg).
Proof.
  intros Hall Hload. unfold app_py.
  rewrite (check_required_all_present w required_files Hall).
  rewrite bind_Return. cbv beta. rewrite Hload. reflexivity.
Qed.

Lemma shown_app_py_run (w : world) (f : form) (a : artifacts) :
  (forall file, In file required_files -> path_exists w file = true) ->
  unpickled w a ->
  shown (app_py w f) = shown (form_and_engine w a f)
  /\ calls (app_py w f)
     = map OsPathExists required_files ++ map JoblibLoad required_files
         ++ calls (form_and_engine w a f)
  /\ ended (app_py w f) = ended (form_and_engine w a f).
Proof.
  intros Hall Ha. rewrite (app_py_run w f a Hall Ha).
  unfold shown, calls, trace, ended. cbn [fst snd].
  rewrite !flat_map_app. repeat split.
Qed.

Lemma form_and_engine_run (w : world) (a : artifacts) (f : form) (raw : list string) :
  dict_get indian_geography (selected_state f) = Some raw ->
  2000 <= today_year w <= 2050 ->
  let engine := if button f then prediction_engine a f else ret tt in
  form_and_engine w a f
  = (map Show (form_widgets w a raw) ++ trace engine, ended engine).
Proof.
  intros Hraw Hyear engine. unfold form_and_engine.
  unfold st_selectbox at 1. rewrite bind_Return. cbv beta.
  unfold dict_getitem. rewrite Hraw. unfold eval. rewrite bind_Return. cbv beta.
  assert (Hlo : (today_year w <? 2000) = false) by (apply Z.ltb_ge; lia).
  assert (Hhi : (2050 <? today_year w) = false) by (apply Z.ltb_ge; lia).
  unfold st_selectbox, st_number_input, st_slider, st_button.
  rewrite Hlo, Hhi.
  cbn [Z.ltb Z.compare Pos.compare Pos.compare_cont].
  repeat (rewrite bind_Return; cbv beta).
  subst engine. unfold trace, ended, form_widgets. cbn [fst snd app map].
  reflexivity.
Qed.

Lemma form_and_engine_KeyError (w : world) (a : artifacts) (f : form) :
  dict_get indian_geography (selected_state f) = None ->
  form_and_engine w a f
  = ([Show (StSelectbox "State" (map PyStr states))],
     Raise (py_repr (selected_state f))).
Proof.
  intros Hraw. unfold form_and_engine.
  unfold st_selectbox at 1. rewrite bind_Return. cbv beta.
  unfold dict_getitem. rewrite Hraw. reflexivity.
Qed.

(** Outside 2000..2050 the Year input raises before it is drawn. *)
Lemma form_and_engine_YearError (w : world) (a : artifacts) (f : form)
    (raw : list string) :
  dict_get indian_geography (selected_state f) = Some raw ->
  today_year w < 2000 \/ 2050 < today_year w ->
  exists msg,
    form_and_engine w a f
    = ([Show (StSelectbox "State" (map PyStr states));
        Show (StSelectbox "City" (map PyStr (sorted raw)))],
       Raise msg).
Proof.
  intros Hraw Hyear.
  cbv beta iota delta [form_and_engine bind st_selectbox eval dict_getitem].
  rewrite Hraw. cbv beta iota. unfold st_number_input at 1.
  destruct (today_year w <? 2000) eqn:Hlo.
  - cbv beta iota delta [app]. eexists. reflexivity.
  - destruct (2050 <? today_year w) eqn:Hhi.
    + cbv beta iota delta [app]. eexists. reflexivity.
    + apply Z.ltb_ge in Hlo, Hhi. lia.
Qed.

Lemma shown_form_and_engine (w : world) (a : artifacts) (f : form) (raw : list string) :
  dict_get indian_geography (selected_state f) = Some raw ->
  2000 <= today_year w <= 2050 ->
  let engine := if button f then prediction_engine a f else ret tt in
  shown (form_and_engine w a f) = form_widgets w a raw ++ shown engine
  /\ calls (form_and_engine w a f) = calls engine
  /\ ended (form_and_engine w a f) = ended engine.
Proof.
  intros Hraw Hyear engine. rewrite (form_and_engine_run w a f raw Hraw Hyear).
  fold engine. unfold shown, calls, trace, ended. cbn [fst snd].
  rewrite !flat_map_app. repeat split.
Qed.

(** ** Determinism *)

Lemma bind_perform_ext {A B} (c : call) (r : pyresult A) (k1 k2 : A -> M B) :
  (forall v, r = Value v -> k1 v = k2 v) ->
  bind (perform c r) k1 = bind (perform c r) k2.
Proof.
  intros H. destruct r as [v | msg]; [| reflexivity].
  rewrite !bind_perform_Value, (H v eq_refl). reflexivity.
Qed.

(** The engine looks at the artifacts only through the guard's test,
    the five encodings and the model's answer on the frame it builds. *)
Lemma prediction_engine_alike (a1 a2 : artifacts) (f : form) :
  answers_alike a1 a2 f ->
  prediction_engine a1 f = prediction_engine a2 f.
Proof.
  intros (Hguard & Hc & Hs & Hl & Ht & Hk & Hp).
  unfold prediction_engine. rewrite Hguard.
  destruct (py_in (selected_city f) (classes_ (le_city a2))); [| reflexivity].
  simpl negb. cbv iota.
  enough (Hbody : predict_logic a1 f = predict_logic a2 f) by now rewrite Hbody.
  unfold predict_logic.
  rewrite !encode_perform, Hc, Hs, Hl, Ht, Hk.
  apply bind_perform_ext. intros c _.
  apply bind_perform_ext. intros s _.
  apply bind_perform_ext. intros l _.
  apply bind_perform_ext. intros t _.
  apply bind_perform_ext. intros k _.
  rewrite !infer_perform, Hp. reflexivity.
Qed.

Lemma answers_alike_refl (a : artifacts) (f : form) : answers_alike a a f.
Proof. repeat split. Qed.

(** C8. Take two runs that reach the engine: all six files exist,
    every load succeeds, the Year input is drawn (the year of the run
    lies in 2000..2050) and the button is pressed.  If the form holds
    the same state, city, year, type, size, bedrooms, condition and
    distance in both, and the loaded artifacts give the same answers to
    what the run asks of them (as identical artifacts do), then the two
    runs show the same result, make the same library calls and end the
    same way, whatever else differs between the two worlds: the date,
    other files, what the artifacts would answer to other questions. *)
Theorem same_selections_same_result (w1 w2 : world) (a1 a2 : artifacts)
    (f1 f2 : form) :
  (forall file, In file required_files ->
     path_exists w1 file = true /\ path_exists w2 file = true) ->
  unpickled w1 a1 ->
  unpickled w2 a2 ->
  2000 <= today_year w1 <= 2050 ->
  2000 <= today_year w2 <= 2050 ->
  selected_state f1 = selected_state f2 ->
  selected_city f1 = selected_city f2 ->
  year f1 = year f2 ->
  prop_type f1 = prop_type f2 ->
  size f1 = size f2 ->
  bedrooms f1 = bedrooms f2 ->
  condition f1 = condition f2 ->
  distance f1 = distance f2 ->
  button f1 = true ->
  button f2 = true ->
  answers_alike a1 a2 f1 ->
  results (app_py w1 f1) = results (app_py w2 f2)
  /\ calls (app_py w1 f1) = calls (app_py w2 f2)
  /\ ended (app_py w1 f1) = ended (app_py w2 f2).
Proof.
  intros Hfiles Ha1 Ha2 Hy1 Hy2 Hst Hci Hy Ht Hsz Hb Hco Hd Hb1 Hb2 Halike.
  assert (Hf : f1 = f2).
  { destruct f1, f2; simpl in *; congruence. }
  subst f2. clear Hst Hci Hy Ht Hsz Hb Hco Hd Hb2.
  unfold results.
  destruct (shown_app_py_run w1 f1 a1 (fun g Hg => proj1 (Hfiles g Hg)) Ha1)
    as (-> & -> & ->).
  destruct (shown_app_py_run w2 f1 a2 (fun g Hg => proj2 (Hfiles g Hg)) Ha2)
    as (-> & -> & ->).
  destruct (dict_get indian_geography (selected_state f1)) as [raw |] eqn:Hraw.
  - destruct (shown_form_and_engine w1 a1 f1 raw Hraw Hy1) as (-> & -> & ->).
    destruct (shown_form_and_engine w2 a2 f1 raw Hraw Hy2) as (-> & -> & ->).
    rewrite Hb1, (prediction_engine_alike a1 a2 f1 Halike).
    rewrite !filter_app. repeat split.
  - rewrite (form_and_engine_KeyError w1 a1 f1 Hraw),
            (form_and_engine_KeyError w2 a2 f1 Hraw).
    repeat split.
Qed.

Lemma same_selections_same_result_witness :
  results (app_py (demo_world (fun _ => true)
                     (constant_model (Float64.of_dyadic 100000 0)) 2025)
                  mumbai_form)
  = results (app_py (wider_world (fun file => negb (String.eqb file "notes.txt"))
                       (constant_model (Float64.of_dyadic 100000 0)) 2031)
                    mumbai_form).
Proof.
  apply (same_selections_same_result
           (demo_world (fun _ => true)
              (constant_model (Float64.of_dyadic 100000 0)) 2025)
           (wider_world (fun file => negb (String.eqb file "notes.txt"))
              (constant_model (Float64.of_dyadic 100000 0)) 2031)
           (demo_artifacts (constant_model (Float64.of_dyadic 100000 0)))
           (wider_artifacts (constant_model (Float64.of_dyadic 100000 0)))
           mumbai_form mumbai_form);
    try reflexivity; try (repeat split; reflexivity); try lia.
  - intros file Hfile. simpl in Hfile.
    destruct Hfile as [<- | [<- | [<- | [<- | [<- | [<- | []]]]]]];
      split; reflexivity.
  - simpl. lia.
  - simpl. lia.
Defined.

(** * Further properties of the script *)

(** ** The engine as a whole *)

Lemma engine_known_city (a : artifacts) (f : form) :
  py_in (selected_city f) (classes_ (le_city a)) = true ->
  prediction_engine a f
  = try_except (predict_logic a f)
               (fun e => st_error ("Prediction error: " ++ e)%string).
Proof. intros H. unfold prediction_engine. now rewrite H. Qed.

Lemma engine_on_failure (a : artifacts) (f : form) (msg : string) :
  py_in (selected_city f) (classes_ (le_city a)) = true ->
  request_failure a f msg ->
  shown (prediction_engine a f) = [StError ("Prediction error: " ++ msg)%string]
  /\ ended (prediction_engine a f) = Return tt.
Proof.
  intros Hin Hfail. rewrite (engine_known_city a f Hin).
  destruct (predict_logic_failure a f msg Hfail) as [Hshown Hended].
  destruct (shown_try_except (predict_logic a f)
              (fun e => st_error ("Prediction error: " ++ e)%string) msg Hended)
    as [Hs He].
  rewrite Hs, He, Hshown. split; reflexivity.
Qed.

Lemma engine_on_success (a : artifacts) (f : form) (c s l t k : Z) (usd : float) :
  py_in (selected_city f) (classes_ (le_city a)) = true ->
  encoded (le_country a) "India" = Value c ->
  encoded (le_state a) (selected_state f) = Value s ->
  encoded (le_city a) (selected_city f) = Value l ->
  encoded (le_type a) (prop_type f) = Value t ->
  encoded (le_condition a) (condition f) = Value k ->
  predicted (model a)
    (make_input_data (year f) c s l t (size f) (bedrooms f) k (distance f))
    = Value usd ->
  shown (prediction_engine a f)
    = [StSubheader ("Estimated Value in " ++ selected_city f)%string;
       StMetric "Price in INR"
         ("₹" ++ format_comma_0f (Float64.mul usd exchange_rate))%string;
       StMetric "Price in USD" ("$" ++ format_comma_0f usd)%string]
  /\ ended (prediction_engine a f) = Return tt.
Proof.
  intros Hin Hc Hs Hl Ht Hk Hp. rewrite (engine_known_city a f Hin).
  unfold predict_logic. repeat run_call. split; reflexivity.
Qed.

(** Behind the guard the body either fails at some call or runs to the
    end. *)
Lemma try_body_cases (a : artifacts) (f : form) :
  (exists msg, request_failure a f msg)
  \/ exists c s l t k usd,
       encoded (le_country a) "India" = Value c
       /\ encoded (le_state a) (selected_state f) = Value s
       /\ encoded (le_city a) (selected_city f) = Value l
       /\ encoded (le_type a) (prop_type f) = Value t
       /\ encoded (le_condition a) (condition f) = Value k
       /\ predicted (model a)
            (make_input_data (year f) c s l t (size f) (bedrooms f) k (distance f))
          = Value usd.
Proof.
  destruct (encoded (le_country a) "India") as [c | msg] eqn:Hc;
    [| left; exists msg; now apply Country_raises].
  destruct (encoded (le_state a) (selected_state f)) as [s | msg] eqn:Hs;
    [| left; exists msg; now apply (State_raises a f msg c)].
  destruct (encoded (le_city a) (selected_city f)) as [l | msg] eqn:Hl;
    [| left; exists msg; now apply (City_raises a f msg c s)].
  destruct (encoded (le_type a) (prop_type f)) as [t | msg] eqn:Ht;
    [| left; exists msg; now apply (Type_raises a f msg c s l)].
  destruct (encoded (le_condition a) (condition f)) as [k | msg] eqn:Hk;
    [| left; exists msg; now apply (Condition_raises a f msg c s l t)].
  destruct (predicted (model a)
              (make_input_data (year f) c s l t (size f) (bedrooms f) k (distance f)))
    as [usd | msg] eqn:Hp;
    [| left; exists msg; now apply (Predict_raises a f msg c s l t k)].
  right. exists c, s, l, t, k, usd. repeat split; assumption.
Qed.

(** X1. Whatever the encoders and the model do, a press of the button
    ends normally and shows exactly one of three things: the warning
    with the hint (city not known to the encoder), one prediction error
    (city known), or the heading with the two prices (city known). *)
Theorem engine_shows_one_outcome (a : artifacts) (f : form) :
  ended (prediction_engine a f) = Return tt
  /\ ((~ In (selected_city f) (classes_ (le_city a))
       /\ shown (prediction_engine a f)
          = [StWarning (advisory_warning (selected_city f)); StInfo advisory_info])
      \/ (In (selected_city f) (classes_ (le_city a))
          /\ exists msg,
               shown (prediction_engine a f)
               = [StError ("Prediction error: " ++ msg)%string])
      \/ (In (selected_city f) (classes_ (le_city a))
          /\ exists inr usd,
               shown (prediction_engine a f)
               = [StSubheader ("Estimated Value in " ++ selected_city f)%string;
                  StMetric "Price in INR" ("₹" ++ inr)%string;
                  StMetric "Price in USD" ("$" ++ usd)%string])).
Proof.
  destruct (py_in (selected_city f) (classes_ (le_city a))) eqn:Hin.
  - pose proof (proj1 (py_in_In _ _) Hin) as HIn.
    destruct (try_body_cases a f) as [[msg Hfail] | (c & s & l & t & k & usd & H)].
    + destruct (engine_on_failure a f msg Hin Hfail) as [Hs He].
      split; [exact He |]. right; left. split; [exact HIn |]. now exists msg.
    + destruct H as (Hc & Hs & Hl & Ht & Hk & Hp).
      destruct (engine_on_success a f c s l t k usd Hin Hc Hs Hl Ht Hk Hp) as [Hsh He].
      split; [exact He |]. right; right. split; [exact HIn |].
      eexists. eexists. exact Hsh.
  - pose proof (proj1 (py_in_not_In _ _) Hin) as HIn.
    unfold prediction_engine. rewrite Hin. simpl. split; [reflexivity |].
    left. split; [exact HIn | reflexivity].
Qed.

(** X2. The calls the engine makes are always an initial part of one
    fixed sequence: [transform] on the country encoder with "India",
    then on the state, city, type and condition encoders with the
    form's labels, then [predict]; no call is repeated and none is made
    out of this order. *)
Theorem engine_calls_in_order (a : artifacts) (f : form) :
  exists n input_data,
    calls (prediction_engine a f) = firstn n (full_calls f input_data).
Proof.
  rewrite calls_prediction_engine.
  destruct (py_in (selected_city f) (classes_ (le_city a)));
    [| exists 0%nat, (make_input_data 0 0 0 0 0 0 0 0 (S754_zero false)); reflexivity].
  unfold predict_logic.
  rewrite encode_perform, calls_bind_perform.
  destruct (encoded (le_country a) "India") as [c |];
    [| exists 1%nat, (make_input_data 0 0 0 0 0 0 0 0 (S754_zero false)); reflexivity].
  rewrite encode_perform, calls_bind_perform.
  destruct (encoded (le_state a) (selected_state f)) as [s |];
    [| exists 2%nat, (make_input_data 0 0 0 0 0 0 0 0 (S754_zero false)); reflexivity].
  rewrite encode_perform, calls_bind_perform.
  destruct (encoded (le_city a) (selected_city f)) as [l |];
    [| exists 3%nat, (make_input_data 0 0 0 0 0 0 0 0 (S754_zero false)); reflexivity].
  rewrite encode_perform, calls_bind_perform.
  destruct (encoded (le_type a) (prop_type f)) as [t |];
    [| exists 4%nat, (make_input_data 0 0 0 0 0 0 0 0 (S754_zero false)); reflexivity].
  rewrite encode_perform, calls_bind_perform.
  destruct (encoded (le_condition a) (condition f)) as [k |];
    [| exists 5%nat, (make_input_data 0 0 0 0 0 0 0 0 (S754_zero false)); reflexivity].
  rewrite infer_perform, calls_bind_perform.
  exists 6%nat,
    (make_input_data (year f) c s l t (size f) (bedrooms f) k (distance f)).
  destruct (predicted _ _); reflexivity.
Qed.

(** X3. If any of the five encoders raises on its label, the model is
    not called in that run. *)
Theorem encoder_failure_skips_model (a : artifacts) (f : form) (msg : string) :
  encoded (le_country a) "India" = Exception msg
  \/ encoded (le_state a) (selected_state f) = Exception msg
  \/ encoded (le_city a) (selected_city f) = Exception msg
  \/ encoded (le_type a) (prop_type f) = Exception msg
  \/ encoded (le_condition a) (condition f) = Exception msg ->
  forall input_data, ~ In (Predict input_data) (calls (prediction_engine a f)).
Proof.
  intros Hraise input_data. rewrite calls_prediction_engine.
  destruct (py_in (selected_city f) (classes_ (le_city a))); [| intros []].
  unfold predict_logic. intros H.
  do 5 next_call_in H.
  destruct Hraise as [E | [E | [E | [E | E]]]]; congruence.
Qed.

Lemma encoder_failure_skips_model_witness :
  ~ In (Predict (make_input_data 2024 0 0 3 1 100 3 1 (Float64.of_dyadic 2 0)))
       (calls (prediction_engine
                 (demo_artifacts (constant_model (S754_zero false)))
                 (demo_form "Goa" "Mumbai"))).
Proof.
  apply (encoder_failure_skips_model
           (demo_artifacts (constant_model (S754_zero false)))
           (demo_form "Goa" "Mumbai")
           "label not in the table: Goa").
  right. left. reflexivity.
Defined.

Lemma engine_returns (a : artifacts) (f : form) :
  ended (prediction_engine a f) = Return tt.
Proof.
  destruct (py_in (selected_city f) (classes_ (le_city a))) eqn:Hin.
  - destruct (try_body_cases a f) as [[msg Hfail] | (c & s & l & t & k & usd & H)].
    + exact (proj2 (engine_on_failure a f msg Hin Hfail)).
    + destruct H as (Hc & Hs & Hl & Ht & Hk & Hp).
      exact (proj2 (engine_on_success a f c s l t k usd Hin Hc Hs Hl Ht Hk Hp)).
  - unfold prediction_engine. rewrite Hin. reflexivity.
Qed.

(** The only error the engine shows is a prediction error. *)
Lemma engine_errors (a : artifacts) (f : form) (body : string) :
  In (StError body) (shown (prediction_engine a f)) ->
  exists msg, body = ("Prediction error: " ++ msg)%string.
Proof.
  destruct (py_in (selected_city f) (classes_ (le_city a))) eqn:Hin.
  - destruct (try_body_cases a f) as [[msg Hfail] | (c & s & l & t & k & usd & H)].
    + rewrite (proj1 (engine_on_failure a f msg Hin Hfail)).
      intros [[= <-] | []]. now exists msg.
    + destruct H as (Hc & Hs & Hl & Ht & Hk & Hp).
      rewrite (proj1 (engine_on_success a f c s l t k usd Hin Hc Hs Hl Ht Hk Hp)).
      intros [E | [E | [E | []]]]; discriminate E.
  - unfold prediction_engine. rewrite Hin.
    intros [E | [E | []]]; discriminate E.
Qed.

(** ** A whole run *)

Lemma string_length_append (a b : string) :
  String.length (a ++ b)%string = (String.length a + String.length b)%nat.
Proof. induction a; simpl; congruence. Qed.

Lemma string_append_inj_l (a b s : string) :
  (a ++ s)%string = (b ++ s)%string -> a = b.
Proof.
  revert b. induction a as [| c a IH]; intros [| d b] H; simpl in H.
  - reflexivity.
  - apply (f_equal String.length) in H. simpl in H.
    rewrite string_length_append in H. lia.
  - apply (f_equal String.length) in H. simpl in H.
    rewrite string_length_append in H. lia.
  - injection H as -> H. f_equal. now apply IH.
Qed.

Lemma missing_file_message_inj (file file' : string) :
  missing_file_message file = missing_file_message file' -> file = file'.
Proof.
  unfold missing_file_message. intros H. simpl in H.
  injection H as H. now apply string_append_inj_l in H.
Qed.

Lemma check_required_spec (w : world) (files : list string) :
  ((forall g, In g files -> path_exists w g = true)
   /\ check_required w files = (exists_calls files, Return tt))
  \/ exists before file after,
       files = before ++ file :: after
       /\ (forall g, In g before -> path_exists w g = true)
       /\ path_exists w file = false
       /\ check_required w files
          = (exists_calls (before ++ [file])
               ++ [Show (StError (missing_file_message file))], Stop).
Proof.
  induction files as [| g rest IH].
  - left. split; [intros g [] | reflexivity].
  - rewrite check_required_cons. destruct (path_exists w g) eqn:Hg.
    + destruct IH as [[Hall ->] | (before & file & after & -> & Hb & Hf & ->)].
      * left. split; [| reflexivity]. intros g' [<- | Hin]; auto.
      * right. exists (g :: before), file, after.
        repeat split; try assumption. intros g' [<- | Hin]; auto.
    + right. exists [], g, rest. repeat split; try assumption. intros g' [].
Qed.

(** What the form and the engine can do, whatever the selections. *)
Lemma form_and_engine_facts (w : world) (a : artifacts) (f : form) :
  ended (form_and_engine w a f) <> Stop
  /\ (forall body, In (StError body) (shown (form_and_engine w a f)) ->
        exists msg, body = ("Prediction error: " ++ msg)%string)
  /\ (button f = false ->
        calls (form_and_engine w a f) = []
        /\ results (form_and_engine w a f) = []).
Proof.
  destruct (dict_get indian_geography (selected_state f)) as [raw |] eqn:Hraw.
  - destruct (Z_lt_dec (today_year w) 2000) as [Hlo | Hlo];
      [| destruct (Z_lt_dec 2050 (today_year w)) as [Hhi | Hhi]].
    + destruct (form_and_engine_YearError w a f raw Hraw (or_introl Hlo)) as [msg ->].
      repeat split; try discriminate. intros body [E | [E | []]]; discriminate E.
    + destruct (form_and_engine_YearError w a f raw Hraw (or_intror Hhi)) as [msg ->].
      repeat split; try discriminate. intros body [E | [E | []]]; discriminate E.
    + assert (Hyear : 2000 <= today_year w <= 2050) by lia.
      unfold results.
      destruct (shown_form_and_engine w a f raw Hraw Hyear) as (-> & -> & ->).
      split; [| split].
      * destruct (button f); [rewrite engine_returns |]; discriminate.
      * intros body Hin. apply in_app_or in Hin as [Hw | He].
        -- unfold form_widgets in Hw. simpl in Hw.
           repeat (destruct Hw as [Hw | Hw]; [discriminate Hw |]). destruct Hw.
        -- destruct (button f); [| destruct He]. now apply engine_errors in He.
      * intros ->. split; reflexivity.
  - rewrite (form_and_engine_KeyError w a f Hraw).
    repeat split; try discriminate. intros body [E | []]. discriminate E.
Qed.

Lemma In_firstn {A} (n : nat) (l : list A) (x : A) : In x (firstn n l) -> In x l.
Proof.
  revert l. induction n as [| n IH]; intros [| y l]; simpl; try contradiction.
  intros [-> | H]; [now left | right; now apply IH].
Qed.

Lemma shown_firstn_load_calls {A} (n : nat) (e : ending A) :
  shown (firstn n load_calls, e) = [].
Proof.
  unfold shown, trace, load_calls. cbn [fst].
  generalize required_files. intros l. revert n.
  induction l as [| g l IH]; intros [| n]; simpl; auto.
Qed.

(** What a run can do once the six files have been found. *)
Lemma app_py_facts (w : world) (f : form) :
  (forall file, In file required_files -> path_exists w file = true) ->
  ended (app_py w f) <> Stop
  /\ (forall body, In (StError body) (shown (app_py w f)) ->
        exists msg, body = ("Prediction error: " ++ msg)%string)
  /\ (button f = false ->
        (forall c, In c (calls (app_py w f)) ->
           exists file, c = OsPathExists file \/ c = JoblibLoad file)
        /\ results (app_py w f) = []).
Proof.
  intros Hall.
  assert (Hstartup : forall c,
             In c (map OsPathExists required_files ++ map JoblibLoad required_files) ->
             exists file, c = OsPathExists file \/ c = JoblibLoad file).
  { intros c Hc. apply in_app_or in Hc as [Hc | Hc];
      apply in_map_iff in Hc as [file [<- _]]; exists file; auto. }
  destruct (load_artifacts_cases w) as [(a & Ha & _) | (n & msg & Hload)].
  - unfold results.
    destruct (shown_app_py_run w f a Hall Ha) as (-> & -> & ->).
    destruct (form_and_engine_facts w a f) as (Hstop & Herr & Hclick).
    split; [exact Hstop |]. split; [exact Herr |].
    intros Hb. destruct (Hclick Hb) as [-> Hres].
    split; [rewrite app_nil_r; exact Hstartup | exact Hres].
  - rewrite (app_py_load_fails w f n msg Hall Hload).
    unfold results. rewrite shown_exists_calls, calls_exists_calls.
    pose proof (shown_firstn_load_calls n (@Raise unit msg)) as Hshown.
    rewrite Hshown. repeat split; try discriminate; try contradiction.
    intros c Hc. apply Hstartup. apply in_app_or in Hc as [Hc | Hc];
      apply in_or_app; [now left | right].
    unfold calls, trace in Hc. cbn [fst] in Hc.
    apply in_flat_map in Hc as [ev [Hev Hc]].
    apply In_firstn in Hev. unfold load_calls in Hev.
    apply in_map_iff in Hev as [g [<- Hg]]. destruct Hc as [<- | []].
    apply in_map_iff. now exists g.
Qed.

Lemma dict_get_None {V} (d : dict V) (k : string) :
  ~ In k (dict_keys d) -> dict_get d k = None.
Proof.
  induction d as [| [k' v'] d IH]; simpl; [reflexivity |].
  intros Hnot. destruct (String.eqb_spec k k') as [-> | Hne].
  - exfalso. apply Hnot. now left.
  - apply IH. intros Hin. apply Hnot. now right.
Qed.

(** X4. A run is halted by [st.stop()] exactly when one of the six
    required files does not exist; with all six there, nothing later in
    the script stops the run. *)
Theorem stops_iff_file_missing (w : world) (f : form) :
  ended (app_py w f) = Stop
  <-> exists file, In file required_files /\ path_exists w file = false.
Proof.
  split.
  - intros Hstop.
    destruct (check_required_spec w required_files)
      as [[Hall _] | (before & file & after & Hsplit & _ & Hfile & _)].
    + exfalso. exact (proj1 (app_py_facts w f Hall) Hstop).
    + exists file. split; [| exact Hfile].
      rewrite Hsplit. apply in_or_app. right. now left.
  - intros (file & Hin & Hfile).
    destruct (check_required_spec w required_files)
      as [[Hall _] | (before & missing & after & Hsplit & Hb & Hm & _)].
    + rewrite (Hall file Hin) in Hfile. discriminate Hfile.
    + rewrite (app_py_first_missing w f before missing after Hsplit Hb Hm).
      reflexivity.
Qed.

(** X5. The script never reports a file as missing that exists: when
    the error "Missing file: F. ..." is on the page, F is one of the
    six required files, it does not exist, and the run was stopped. *)
Theorem missing_report_is_true (w : world) (f : form) (file : string) :
  In (StError (missing_file_message file)) (shown (app_py w f)) ->
  In file required_files
  /\ path_exists w file = false
  /\ ended (app_py w f) = Stop.
Proof.
  intros Hshown.
  destruct (check_required_spec w required_files)
    as [[Hall _] | (before & missing & after & Hsplit & Hb & Hm & _)].
  - exfalso.
    destruct (proj1 (proj2 (app_py_facts w f Hall)) _ Hshown) as [msg E].
    discriminate E.
  - rewrite (app_py_first_missing w f before missing after Hsplit Hb Hm) in *.
    rewrite shown_exists_calls in Hshown. destruct Hshown as [E | []].
    assert (E' : missing_file_message missing = missing_file_message file)
      by congruence.
    apply missing_file_message_inj in E'. subst missing.
    repeat split; [| exact Hm].
    rewrite Hsplit. apply in_or_app. right. now left.
Qed.

Lemma missing_report_is_true_witness :
  path_exists
    (demo_world (fun file => negb (String.eqb file "le_type.pkl"))
                (failing_model "unused") 2026)
    "le_type.pkl" = false.
Proof.
  apply (missing_report_is_true
           (demo_world (fun file => negb (String.eqb file "le_type.pkl"))
                       (failing_model "unused") 2026)
           (demo_form "Goa" "Panaji") "le_type.pkl").
  vm_compute. left. reflexivity.
Defined.

Lemma stops_iff_file_missing_witness :
  ended (app_py (demo_world (fun file => negb (String.eqb file "le_state.pkl"))
                            (failing_model "unused") 2026)
                (demo_form "Goa" "Panaji")) = Stop.
Proof.
  apply (proj2 (stops_iff_file_missing
                  (demo_world (fun file => negb (String.eqb file "le_state.pkl"))
                              (failing_model "unused") 2026)
                  (demo_form "Goa" "Panaji"))).
  exists "le_state.pkl". split; [simpl; tauto | reflexivity].
Defined.

(** X6. A run in which all six files are present, every load
    succeeds, the year lies in 2000..2050 and a state of the catalog is
    selected is made of three parts in this order: the six existence
    checks, the six loads, and the form; the engine runs on the loaded
    artifacts if the button is pressed.  The page holds the nine input
    widgets followed by what the engine shows, and the run ends
    normally whatever the encoders and the model do. *)
Theorem run_with_all_files (w : world) (a : artifacts) (f : form) :
  (forall file, In file required_files -> path_exists w file = true) ->
  unpickled w a ->
  2000 <= today_year w <= 2050 ->
  In (selected_state f) (dict_keys indian_geography) ->
  exists raw,
    dict_get indian_geography (selected_state f) = Some raw
    /\ calls (app_py w f)
       = map OsPathExists required_files ++ map JoblibLoad required_files
           ++ calls (if button f then prediction_engine a f else ret tt)
    /\ shown (app_py w f)
       = form_widgets w a raw
           ++ shown (if button f then prediction_engine a f else ret tt)
    /\ ended (app_py w f) = Return tt.
Proof.
  intros Hall Ha Hyear Hstate.
  destruct (dict_get_key _ _ Hstate) as [raw Hraw]. exists raw.
  split; [exact Hraw |].
  destruct (shown_app_py_run w f a Hall Ha) as (-> & -> & ->).
  destruct (shown_form_and_engine w a f raw Hraw Hyear) as (-> & -> & ->).
  repeat split.
  destruct (button f); [apply engine_returns | reflexivity].
Qed.

Lemma run_with_all_files_witness :
  exists raw,
    dict_get indian_geography "Maharashtra" = Some raw
    /\ calls (app_py (demo_world (fun _ => true)
                                 (constant_model (Float64.of_dyadic 100000 0)) 2026)
                     mumbai_form)
       = map OsPathExists required_files ++ map JoblibLoad required_files
           ++ calls (prediction_engine
                       (demo_artifacts (constant_model (Float64.of_dyadic 100000 0)))
                       mumbai_form)
    /\ shown (app_py (demo_world (fun _ => true)
                                 (constant_model (Float64.of_dyadic 100000 0)) 2026)
                     mumbai_form)
       = form_widgets (demo_world (fun _ => true)
                         (constant_model (Float64.of_dyadic 100000 0)) 2026)
                      (demo_artifacts (constant_model (Float64.of_dyadic 100000 0)))
                      raw
           ++ shown (prediction_engine
                       (demo_artifacts (constant_model (Float64.of_dyadic 100000 0)))
                       mumbai_form)
    /\ ended (app_py (demo_world (fun _ => true)
                                 (constant_model (Float64.of_dyadic 100000 0)) 2026)
                     mumbai_form) = Return tt.
Proof.
  apply (run_with_all_files
           (demo_world (fun _ => true) (constant_model (Float64.of_dyadic 100000 0)) 2026)
           (demo_artifacts (constant_model (Float64.of_dyadic 100000 0)))
           mumbai_form).
  - intros file _. reflexivity.
  - repeat split; reflexivity.
  - simpl. lia.
  - unfold dict_keys. simpl. tauto.
Defined.

(** X8. Without a press of the button a run calls no encoder and no
    model, and shows no advisory, no price and no prediction error:
    its only calls are existence checks and loads, and the only result
    it can show is the missing-file error. *)
Theorem no_click_no_prediction (w : world) (f : form) :
  button f = false ->
  (forall c, In c (calls (app_py w f)) ->
     exists file, c = OsPathExists file \/ c = JoblibLoad file)
  /\ (forall el, In el (results (app_py w f)) ->
        exists file, el = StError (missing_file_message file)).
Proof.
  intros Hbutton.
  destruct (check_required_spec w required_files)
    as [[Hall _] | (before & missing & after & Hsplit & Hb & Hm & _)].
  - destruct (proj2 (proj2 (app_py_facts w f Hall)) Hbutton) as [Hcalls ->].
    split; [exact Hcalls | intros el []].
  - rewrite (app_py_first_missing w f before missing after Hsplit Hb Hm).
    unfold results. rewrite shown_exists_calls, calls_exists_calls. split.
    + intros c Hc. simpl in Hc. rewrite app_nil_r in Hc.
      apply in_map_iff in Hc as [file [<- _]]. exists file. auto.
    + intros el [<- | []]. now exists missing.
Qed.

Lemma no_click_no_prediction_witness :
  exists file,
    StError (missing_file_message "le_city.pkl") = StError (missing_file_message file).
Proof.
  apply (proj2 (no_click_no_prediction
                  (demo_world (fun file => negb (String.eqb file "le_city.pkl"))
                              (failing_model "unused") 2026)
                  {| selected_state := "Goa"; selected_city := "Panaji";
                     year := 2024; prop_type := "House"; size := 100;
                     bedrooms := 3; condition := "New";
                     distance := Float64.of_dyadic 2 0; button := false |}
                  eq_refl)).
  vm_compute. left. reflexivity.
Defined.

(** X9. The Year input has the fixed bounds 2000 and 2050 and today's
    year as its default, so the script only works in those years: with
    all six files present, every load succeeding and a state of the
    catalog selected, the run ends with an exception exactly when
    today's year is before 2000 or after 2050; it then ends at the Year
    input, with only the State and City selectboxes drawn and no
    encoder or model called, pressed button or not. *)
Theorem year_outside_bounds_raises (w : world) (a : artifacts) (f : form) :
  (forall file, In file required_files -> path_exists w file = true) ->
  unpickled w a ->
  In (selected_state f) (dict_keys indian_geography) ->
  ((exists msg, ended (app_py w f) = Raise msg)
   <-> today_year w < 2000 \/ 2050 < today_year w)
  /\ (today_year w < 2000 \/ 2050 < today_year w ->
      exists raw,
        dict_get indian_geography (selected_state f) = Some raw
        /\ shown (app_py w f)
           = [StSelectbox "State" (map PyStr states);
              StSelectbox "City" (map PyStr (sorted raw))]
        /\ calls (app_py w f)
           = map OsPathExists required_files ++ map JoblibLoad required_files).
Proof.
  intros Hall Ha Hstate.
  destruct (dict_get_key _ _ Hstate) as [raw Hraw].
  destruct (shown_app_py_run w f a Hall Ha) as (-> & -> & ->).
  assert (Hout : today_year w < 2000 \/ 2050 < today_year w ->
                 exists msg,
                   form_and_engine w a f
                   = ([Show (StSelectbox "State" (map PyStr states));
                       Show (StSelectbox "City" (map PyStr (sorted raw)))],
                      Raise msg))
    by (apply form_and_engine_YearError; exact Hraw).
  split; [split |].
  - intros [msg Hraise].
    destruct (Z_lt_dec (today_year w) 2000) as [Hlo | Hlo]; [now left |].
    destruct (Z_lt_dec 2050 (today_year w)) as [Hhi | Hhi]; [now right |].
    exfalso. assert (Hyear : 2000 <= today_year w <= 2050) by lia.
    rewrite (proj2 (proj2 (shown_form_and_engine w a f raw Hraw Hyear))) in Hraise.
    destruct (button f); [rewrite engine_returns in Hraise |]; discriminate Hraise.
  - intros Hyear. destruct (Hout Hyear) as [msg ->]. now exists msg.
  - intros Hyear. destruct (Hout Hyear) as [msg ->]. exists raw.
    split; [exact Hraw |]. split; [reflexivity |].
    unfold calls, trace. cbn [fst flat_map app]. now rewrite app_nil_r.
Qed.

Lemma year_outside_bounds_raises_witness :
  exists raw,
    dict_get indian_geography "Maharashtra" = Some raw
    /\ shown (app_py (demo_world (fun _ => true) (failing_model "unused") 2051)
                     mumbai_form)
       = [StSelectbox "State" (map PyStr states);
          StSelectbox "City" (map PyStr (sorted raw))]
    /\ calls (app_py (demo_world (fun _ => true) (failing_model "unused") 2051)
                     mumbai_form)
       = map OsPathExists required_files ++ map JoblibLoad required_files.
Proof.
  apply (proj2 (year_outside_bounds_raises
                  (demo_world (fun _ => true) (failing_model "unused") 2051)
                  (demo_artifacts (failing_model "unused")) mumbai_form
                  (fun file _ => eq_refl)
                  (conj eq_refl (conj eq_refl (conj eq_refl
                     (conj eq_refl (conj eq_refl eq_refl)))))
                  ltac:(unfold dict_keys; simpl; tauto))).
  right. simpl. lia.
Defined.

(** ** Sorting and the catalog, again *)

Lemma str_le_trans (x y z : string) : str_le x y -> str_le y z -> str_le x z.
Proof.
  unfold str_le, String.leb. revert y z.
  induction x as [| a x IH]; intros [| b y] [| c z]; simpl; try congruence.
  unfold Ascii.compare.
  destruct (N.compare_spec (N_of_ascii a) (N_of_ascii b)) as [Hab | Hab | Hab];
    destruct (N.compare_spec (N_of_ascii b) (N_of_ascii c)) as [Hbc | Hbc | Hbc];
    destruct (N.compare_spec (N_of_ascii a) (N_of_ascii c)) as [Hac | Hac | Hac];
    try congruence; try lia.
  apply IH.
Qed.

Lemma str_le_antisym (x y : string) : str_le x y -> str_le y x -> x = y.
Proof. apply String.leb_antisym. Qed.

Lemma ascending_unique (l1 l2 : list string) :
  StronglySorted str_le l1 -> StronglySorted str_le l2 ->
  Permutation l1 l2 -> l1 = l2.
Proof.
  revert l2. induction l1 as [| a l1 IH]; intros l2 H1 H2 Hperm.
  - apply Permutation_nil in Hperm. now subst.
  - destruct l2 as [| b l2].
    + symmetry in Hperm. apply Permutation_nil in Hperm. discriminate Hperm.
    + inversion H1 as [| ? ? Hs1 Hall1]; subst.
      inversion H2 as [| ? ? Hs2 Hall2]; subst.
      rewrite Forall_forall in Hall1, Hall2.
      assert (Hab : a = b).
      { assert (Ha : In a (b :: l2))
          by (apply (Permutation_in a Hperm); now left).
        assert (Hb : In b (a :: l1))
          by (apply (Permutation_in b (Permutation_sym Hperm)); now left).
        destruct Ha as [-> | Ha]; [reflexivity |].
        destruct Hb as [-> | Hb]; [reflexivity |].
        apply str_le_antisym; auto. }
      subst b. f_equal. apply IH; try assumption.
      now apply Permutation_cons_inv in Hperm.
Qed.

Lemma sorted_StronglySorted (l : list string) : StronglySorted str_le (sorted l).
Proof.
  apply Sorted_StronglySorted; [| apply sorted_Sorted].
  intros x y z. apply str_le_trans.
Qed.

(** X10. [sorted] gives the one ascending arrangement of its input:
    any list with the same elements that is in ascending order is equal
    to it, so the result does not depend on how the sort is carried
    out. *)
Theorem sorted_is_the_ascending_arrangement (l l' : list string) :
  Permutation l l' ->
  Sorted str_le l' ->
  l' = sorted l.
Proof.
  intros Hperm Hsorted. apply ascending_unique.
  - apply Sorted_StronglySorted; [| exact Hsorted].
    intros x y z. apply str_le_trans.
  - apply sorted_StronglySorted.
  - rewrite <- Hperm. apply sorted_Permutation.
Qed.

Lemma sorted_is_the_ascending_arrangement_witness :
  ["Jammu"; "Kochi"; "Pune"] = sorted ["Pune"; "Jammu"; "Kochi"].
Proof.
  apply (sorted_is_the_ascending_arrangement
           ["Pune"; "Jammu"; "Kochi"] ["Jammu"; "Kochi"; "Pune"]).
  - apply (Permutation_cons_app ["Jammu"; "Kochi"] [] "Pune").
    apply Permutation_refl.
  - repeat constructor.
Defined.

Lemma indian_geography_keys_NoDup : NoDup (dict_keys indian_geography).
Proof. apply distinct_NoDup. vm_compute. reflexivity. Qed.

Lemma indian_geography_cities_NoDup : NoDup (flat_map snd indian_geography).
Proof. apply distinct_NoDup. vm_compute. reflexivity. Qed.

Lemma NoDup_flat_map_part {V} (d : list (string * list V)) (p : string * list V) :
  NoDup (flat_map snd d) -> In p d -> NoDup (snd p).
Proof.
  induction d as [| q d IH]; simpl; [intros _ [] |]. intros Hnd [-> | Hin].
  - clear IH. induction (snd p) as [| x l IHl]; [constructor |].
    simpl in Hnd. inversion Hnd as [| ? ? Hx Hnd']; subst.
    constructor; [| now apply IHl].
    intros Hin. apply Hx. apply in_or_app. now left.
  - apply IH; [| exact Hin].
    clear -Hnd. induction (snd q) as [| x l IHl]; [exact Hnd |].
    simpl in Hnd. inversion Hnd; subst. now apply IHl.
Qed.

(** X11. The form offers what the catalog holds, no more and no less:
    the State options are the catalog's keys, each once, and the City
    options for a state are the cities of that state's entry, each
    once; sorting only rearranges them. *)
Theorem form_offers_the_catalog (region : string) (localities : list string) :
  cities region = Some localities ->
  Permutation (dict_keys indian_geography) states
  /\ NoDup states
  /\ exists raw,
       In (region, raw) indian_geography
       /\ Permutation raw localities
       /\ NoDup localities.
Proof.
  unfold cities. intros H.
  destruct (dict_get indian_geography region) as [raw |] eqn:Hraw;
    [| discriminate H].
  injection H as <-.
  split; [apply sorted_Permutation |].
  split.
  - apply (Permutation_NoDup (sorted_Permutation _)).
    apply indian_geography_keys_NoDup.
  - exists raw. pose proof (dict_get_In _ _ _ Hraw) as Hin.
    split; [exact Hin |]. split; [apply sorted_Permutation |].
    apply (Permutation_NoDup (sorted_Permutation _)).
    apply (NoDup_flat_map_part indian_geography (region, raw)
             indian_geography_cities_NoDup Hin).
Qed.

Lemma form_offers_the_catalog_witness :
  exists raw,
    In ("Sikkim", raw) indian_geography
    /\ Permutation raw ["Gangtok"; "Namchi"]
    /\ NoDup ["Gangtok"; "Namchi"].
Proof.
  apply (form_offers_the_catalog "Sikkim" ["Gangtok"; "Namchi"]).
  reflexivity.
Defined.

(** ** The text of a price *)

Lemma all_digits_string_of_uint (d : Decimal.uint) :
  all_chars is_digit (NilEmpty.string_of_uint d) = true.
Proof. induction d; simpl; auto. Qed.

Lemma all_digits_decimal (n : Z) : all_chars is_digit (decimal n) = true.
Proof.
  unfold decimal, NilZero.string_of_uint.
  destruct (N.to_uint (Z.to_N n)) eqn:E; try reflexivity;
    rewrite <- E; apply all_digits_string_of_uint.
Qed.

Lemma digit_is_no_comma (c : ascii) :
  is_digit c = true -> Ascii.eqb c "," = false.
Proof.
  intros H. destruct (Ascii.eqb_spec c ",") as [-> | _]; [discriminate H | reflexivity].
Qed.

Lemma strip_commas_group_thousands (s : string) :
  all_chars is_digit s = true ->
  strip_commas (group_thousands s) = s.
Proof.
  rewrite all_chars_of_list. unfold strip_commas, group_thousands.
  intros Hdigits. rewrite <- (string_of_list_ascii_of_string s) at 2. f_equal.
  induction (list_ascii_of_string s) as [| c l IH]; [reflexivity |].
  simpl in Hdigits. apply andb_true_iff in Hdigits as [Hc Hl].
  specialize (IH Hl). simpl.
  destruct (fold_right group_step (EmptyString, 0%nat) l) as [out k].
  simpl in *. destruct (Nat.eqb k 3); simpl;
    rewrite (digit_is_no_comma c Hc); simpl; now rewrite IH.
Qed.

Lemma N_to_uint_nonnil (n : N) : N.to_uint n <> Decimal.Nil.
Proof.
  destruct n as [| p]; [discriminate |].
  apply DecimalPos.Unsigned.to_uint_nonnil.
Qed.

(** X12. The text written for a whole number reads back as that
    number: with the thousands separators taken out, the digits spell
    exactly [n]; a negative value has the same text behind a minus
    sign. *)
Theorem price_text_reads_back (n : Z) :
  0 <= n ->
  read_whole (whole_text false n) = Some n
  /\ whole_text true n = String "-" (whole_text false n).
Proof.
  intros Hn. split; [| reflexivity].
  unfold whole_text. simpl append. unfold read_whole.
  rewrite (strip_commas_group_thousands _ (all_digits_decimal n)).
  unfold decimal. rewrite (NilZero.usu _ (N_to_uint_nonnil _)). simpl.
  rewrite DecimalN.Unsigned.of_to. f_equal. lia.
Qed.

Lemma price_text_reads_back_witness :
  read_whole (whole_text false 8650000) = Some 8650000.
Proof.
  apply (price_text_reads_back 8650000). lia.
Defined.

Lemma list_ascii_of_string_app (a b : string) :
  list_ascii_of_string (a ++ b)
  = list_ascii_of_string a ++ list_ascii_of_string b.
Proof. induction a; simpl; congruence. Qed.

Lemma length_list_ascii_of_string (s : string) :
  List.length (list_ascii_of_string s) = String.length s.
Proof. induction s; simpl; congruence. Qed.

Lemma group_short (l : list ascii) :
  (List.length l <= 3)%nat ->
  fold_right group_step (EmptyString, 0%nat) l
  = (string_of_list_ascii l, List.length l).
Proof.
  induction l as [| c l IH]; simpl; intros Hlen; [reflexivity |].
  rewrite IH by lia. simpl.
  destruct (Nat.eqb_spec (List.length l) 3) as [E | _]; [lia | reflexivity].
Qed.

Lemma group_after_three (out : string) (l : list ascii) :
  l <> [] ->
  fold_right group_step (out, 3%nat) l
  = ((fst (fold_right group_step (EmptyString, 0%nat) l) ++ "," ++ out)%string,
     snd (fold_right group_step (EmptyString, 0%nat) l)).
Proof.
  induction l as [| c l IH]; intros Hne; [congruence |].
  destruct l as [| c' l]; [reflexivity |].
  cbn [fold_right] in *. rewrite IH by discriminate.
  destruct (group_step c' (fold_right group_step (EmptyString, 0%nat) l)) as [g k].
  simpl. destruct (Nat.eqb k 3); reflexivity.
Qed.

(** X13. The thousands separators stand where they should: a text of
    at most three characters is left as it is, and a longer one is
    grouped by cutting off its last three characters, grouping what is
    before them and putting one comma between the two. *)
Theorem thousands_grouping (a b : string) :
  ((String.length b <= 3)%nat -> group_thousands b = b)
  /\ (a <> EmptyString -> String.length b = 3%nat ->
      group_thousands (a ++ b) = (group_thousands a ++ "," ++ b)%string).
Proof.
  split.
  - intros Hlen. unfold group_thousands.
    rewrite group_short by (now rewrite length_list_ascii_of_string).
    apply string_of_list_ascii_of_string.
  - intros Ha Hb. unfold group_thousands.
    rewrite list_ascii_of_string_app, fold_right_app.
    rewrite (group_short (list_ascii_of_string b))
      by (rewrite length_list_ascii_of_string; lia).
    rewrite length_list_ascii_of_string, Hb, string_of_list_ascii_of_string.
    rewrite group_after_three; [reflexivity |].
    destruct a; [congruence | discriminate].
Qed.

Lemma thousands_grouping_witness :
  group_thousands ("1234" ++ "567") = (group_thousands "1234" ++ "," ++ "567")%string.
Proof.
  apply (proj2 (thousands_grouping "1234" "567")); [discriminate | reflexivity].
Defined.

(** X14. A value exactly halfway between two whole numbers is written
    as one of those two, and as the even one: for [m / 2^k] with
    remainder exactly half of [2^k], the number written is the quotient
    or the quotient plus one, whichever is even. *)
Theorem exact_half_rounds_to_even (s : bool) (m : positive) (e : Z) :
  e < 0 ->
  2 * (Zpos m mod 2 ^ (- e)) = 2 ^ (- e) ->
  exists n,
    format_comma_0f (S754_finite s m e) = whole_text s n
    /\ (n = Zpos m / 2 ^ (- e) \/ n = Zpos m / 2 ^ (- e) + 1)
    /\ Z.even n = true.
Proof.
  intros He Hhalf. exists (Float64.round_half_even m e).
  split; [reflexivity |].
  unfold Float64.round_half_even.
  destruct (Z.leb_spec 0 e) as [Hle | _]; [lia |].
  rewrite Hhalf, Z.compare_refl.
  destruct (Z.even (Zpos m / 2 ^ (- e))) eqn:Hq.
  - split; [now left | exact Hq].
  - split; [now right |].
    rewrite Z.add_1_r, Z.even_succ, <- Z.negb_even, Hq. reflexivity.
Qed.

Lemma exact_half_rounds_to_even_witness :
  exists n,
    format_comma_0f (S754_finite false 5 (-1)) = whole_text false n
    /\ (n = 5 / 2 ^ (- (-1)) \/ n = 5 / 2 ^ (- (-1)) + 1)
    /\ Z.even n = true.
Proof.
  apply (exact_half_rounds_to_even false 5 (-1)); [lia | reflexivity].
Defined.

(** X15. When the model answers with an infinity or with NaN, the same
    non-number stands under both prices: the product with the exchange
    rate is the same infinity, or NaN again. *)
Theorem nonfinite_prediction_is_shown_as_is (a : artifacts) (f : form)
    (country_enc state_enc city_enc type_enc condition_enc : Z)
    (prediction_usd : float) :
  In (selected_city f) (classes_ (le_city a)) ->
  encoded (le_country a) "India" = Value country_enc ->
  encoded (le_state a) (selected_state f) = Value state_enc ->
  encoded (le_city a) (selected_city f) = Value city_enc ->
  encoded (le_type a) (prop_type f) = Value type_enc ->
  encoded (le_condition a) (condition f) = Value condition_enc ->
  predicted (model a)
    (make_input_data (year f) country_enc state_enc city_enc type_enc
                     (size f) (bedrooms f) condition_enc (distance f))
    = Value prediction_usd ->
  Float64.is_finite prediction_usd = false ->
  exists text,
    (text = "inf" \/ text = "-inf" \/ text = "nan")
    /\ shown (prediction_engine a f)
       = [StSubheader ("Estimated Value in " ++ selected_city f)%string;
          StMetric "Price in INR" ("₹" ++ text)%string;
          StMetric "Price in USD" ("$" ++ text)%string].
Proof.
  intros Hin Hc Hs Hl Ht Hk Hp Hnf. apply py_in_In in Hin.
  rewrite (proj1 (engine_on_success a f _ _ _ _ _ _ Hin Hc Hs Hl Ht Hk Hp)).
  rewrite exchange_rate_exact.
  destruct prediction_usd as [s | [|] | | s m e]; try discriminate Hnf.
  - exists "-inf". split; [auto | reflexivity].
  - exists "inf". split; [auto | reflexivity].
  - exists "nan". split; [auto | reflexivity].
Qed.

Lemma nonfinite_prediction_is_shown_as_is_witness :
  exists text,
    (text = "inf" \/ text = "-inf" \/ text = "nan")
    /\ shown (prediction_engine (demo_artifacts (constant_model S754_nan)) mumbai_form)
       = [StSubheader "Estimated Value in Mumbai";
          StMetric "Price in INR" ("₹" ++ text)%string;
          StMetric "Price in USD" ("$" ++ text)%string].
Proof.
  apply (nonfinite_prediction_is_shown_as_is
           (demo_artifacts (constant_model S754_nan)) mumbai_form 0 2 3 1 1 S754_nan);
    try reflexivity.
  apply py_in_In. reflexivity.
Defined.
